(** * Gym admin console: the fetch / mutate / refresh contract of its pages

    A shallow embedding of the three page components of the console
    ([MembershipPlansPage.tsx], [AttendancePage.tsx], [UsersPage.tsx]).

    Every page is a React function component: a record of [useState] cells
    (the _view_), event handlers that call the state setters, and [async]
    handlers that suspend at each [await] of a remote call.  The embedding
    keeps that shape:

    - the view is a record with one field per [useState] cell;
    - a handler is a function on the page state, written as the sequence of
      setter calls of the source;
    - an [async] function is cut at its [await]s: the part before the first
      [await] is a handler, and each resumption point is a constructor of a
      first-order type of continuations, resumed by the reply of the remote
      call it waits for;
    - the page state also holds the remote calls in flight (with the
      continuation each one resumes) and the history of the calls issued;
    - the browser event loop is a step function: a step is a user event on a
      control that is rendered and enabled, or the settling of one call in
      flight. *)

From Stdlib Require Import ZArith NArith List String Ascii DecimalString Bool Lia.
From stdpp Require Import base decidable option list gmap.

Set Default Proof Using "Type".

(** ** JavaScript values used by the pages *)

Module JS.

(** A JavaScript string is a sequence of UTF-16 code units. *)
Abbreviation jstring := (list N) (only parsing).

(** String literals of the source (all of them ASCII). *)
Definition js (s : string) : jstring :=
  map N_of_ascii (list_ascii_of_string s).

(** Truthiness of a string: only the empty string is falsy. *)
Definition truthy (s : jstring) : bool :=
  match s with [] => false | _ :: _ => true end.

(** [a || b] where [a] is a string or [undefined]. *)
Definition or_else (a : option jstring) (b : jstring) : jstring :=
  match a with
  | Some s => if truthy s then s else b
  | None => b
  end.

(** [String.prototype.substring(start, end)] on non-negative integers: both
    indices are clamped to the length and swapped when out of order. *)
Definition substring (start end_ : nat) (s : jstring) : jstring :=
  let a := Nat.min start (length s) in
  let b := Nat.min end_ (length s) in
  take (Nat.max a b - Nat.min a b) (drop (Nat.min a b) s).

(** The code units [String.prototype.trim] strips: ECMAScript WhiteSpace
    (TAB, VT, FF, SP, NBSP, ZWNBSP and the category Zs) and LineTerminator
    (LF, CR, LS, PS). *)
Definition isWhiteSpace (c : N) : bool :=
  match c with
  | 9 | 10 | 11 | 12 | 13 | 32 | 160 | 5760
  | 8232 | 8233 | 8239 | 8287 | 12288 | 65279 => true
  | _ => (8192 <=? c) && (c <=? 8202)
  end%N.

Fixpoint trimStart (s : jstring) : jstring :=
  match s with
  | c :: s' => if isWhiteSpace c then trimStart s' else s
  | [] => []
  end.

Definition trimEnd (s : jstring) : jstring := rev (trimStart (rev s)).

Definition trim (s : jstring) : jstring := trimEnd (trimStart s).

(** JavaScript numbers (IEEE doubles) and the conversions the pages call are
    not interpreted: the pages only move numbers between the remote
    interface and the form fields. *)
Class JSNumber := {
  number : Type;
  number_eq_dec :: EqDecision number;
  parseInt : jstring -> number;
  parseFloat : jstring -> number;
  numberToString : number -> jstring
}.

(** [format(new Date(date), pattern)] of date-fns, not interpreted either;
    [None] when it throws (a [RangeError] on an invalid date). *)
Class DateFns := {
  format : jstring -> jstring -> option jstring
}.

(** The integer fragment, used to run the pages on concrete inputs:
    [None] is [NaN]; a numeral is an optional [-] and decimal digits. *)
Definition digit (c : N) : option Z :=
  if ((48 <=? c) && (c <=? 57))%N then Some (Z.of_N c - 48)%Z else None.

Fixpoint parseDigits (acc : option Z) (s : jstring) : option Z :=
  match s with
  | c :: s' =>
      match digit c with
      | Some d => parseDigits (Some (10 * default 0 acc + d)%Z) s'
      | None => acc
      end
  | [] => acc
  end.

Definition parseIntZ (s : jstring) : option Z :=
  match trimStart s with
  | 45%N :: s' => Z.opp <$> parseDigits None s'
  | s' => parseDigits None s'
  end.

Definition ZToString (n : option Z) : jstring :=
  match n with
  | Some z => js (DecimalString.NilZero.string_of_int (Z.to_int z))
  | None => js "NaN"
  end.

#[export] Instance integers : JSNumber := {|
  number := option Z;
  parseInt := parseIntZ;
  parseFloat := parseIntZ;
  numberToString := ZToString
|}.

(** Formatting for the concrete runs: the date and the time of day are cut
    out of a timestamp written [yyyy-MM-ddTHH:mm:ss], read as local time. *)
Definition formatLocal (date pattern : jstring) : option jstring :=
  if decide (length date = 19) then
    if decide (pattern = js "HH:mm:ss") then Some (substring 11 19 date)
    else if decide (pattern = js "yyyy-MM-dd") then Some (substring 0 10 date)
    else if decide (pattern = js "yyyy-MM-dd HH:mm:ss")
         then Some (substring 0 10 date ++ js " " ++ substring 11 19 date)
    else None
  else None.

#[export] Instance localTimestamps : DateFns := {| format := formatLocal |}.

End JS.
Import JS.

Example trim_example : trim (js "  ab c  ") = js "ab c".
Proof. reflexivity. Qed.

Example substring_example : substring 0 8 (js "e0a0ca55-986e") = js "e0a0ca55".
Proof. reflexivity. Qed.

Example parseInt_example : parseIntZ (js " -42px") = Some (-42)%Z.
Proof. reflexivity. Qed.

(** ** Facts about [trim] *)

Definition allWhiteSpace (s : jstring) : Prop :=
  Forall (fun c => isWhiteSpace c = true) s.

Lemma trimStart_decomposition s :
  exists before, s = before ++ trimStart s /\ allWhiteSpace before.
Proof.
  induction s as [|c s [before [Hs Hb]]]; cbn.
  - exists []. split; [reflexivity | constructor].
  - destruct (isWhiteSpace c) eqn:Hc.
    + exists (c :: before). split; [cbn; congruence | constructor; assumption].
    + exists []. split; [reflexivity | constructor].
Qed.

Lemma trimStart_no_leading s c rest :
  trimStart s = c :: rest -> isWhiteSpace c = false.
Proof.
  induction s as [|c' s IH]; cbn; [discriminate|].
  destruct (isWhiteSpace c') eqn:Hc; [exact IH|].
  intros [= -> _]. exact Hc.
Qed.

Lemma trimEnd_decomposition s :
  exists after, s = trimEnd s ++ after /\ allWhiteSpace after.
Proof.
  destruct (trimStart_decomposition (rev s)) as [before [Hs Hb]].
  exists (rev before). split.
  - unfold trimEnd. rewrite <- rev_app_distr, <- Hs, rev_involutive. reflexivity.
  - apply Forall_rev. exact Hb.
Qed.

Lemma trimEnd_no_trailing s c init :
  trimEnd s = init ++ [c] -> isWhiteSpace c = false.
Proof.
  unfold trimEnd. intros E. apply (f_equal (@rev N)) in E.
  rewrite rev_involutive, rev_app_distr in E. cbn in E.
  eapply trimStart_no_leading. exact E.
Qed.

(** Stripping trailing white space keeps a first code unit that is not
    white space. *)
Lemma trimEnd_keeps_head c rest :
  isWhiteSpace c = false -> exists rest', trimEnd (c :: rest) = c :: rest'.
Proof.
  intros Hc. destruct (trimEnd_decomposition (c :: rest)) as [after [Hs Ha]].
  destruct (trimEnd (c :: rest)) as [|c' rest'] eqn:E.
  - cbn in Hs. subst after. inversion Ha; congruence.
  - injection Hs as <- _. eauto.
Qed.

Lemma trim_decomposition s :
  exists before after,
    s = before ++ trim s ++ after /\ allWhiteSpace before /\ allWhiteSpace after.
Proof.
  destruct (trimStart_decomposition s) as [before [Hs Hb]].
  destruct (trimEnd_decomposition (trimStart s)) as [after [Ht Ha]].
  exists before, after. unfold trim. rewrite <- Ht. auto.
Qed.

Lemma trim_no_leading s c rest : trim s = c :: rest -> isWhiteSpace c = false.
Proof.
  unfold trim. destruct (trimStart s) as [|c' t] eqn:E.
  - discriminate.
  - pose proof (trimStart_no_leading _ _ _ E) as Hc'.
    destruct (trimEnd_keeps_head c' t Hc') as [rest' ->].
    intros [= <- _]. exact Hc'.
Qed.

Lemma trim_no_trailing s c init : trim s = init ++ [c] -> isWhiteSpace c = false.
Proof. apply trimEnd_no_trailing. Qed.

(** Handlers are run one after the other, like statements. *)
Definition seq {S : Type} (f g : S -> S) : S -> S := fun s => g (f s).
Declare Scope handler_scope.
Notation "f ;; g" := (seq f g)
  (at level 100, g at level 200, right associativity) : handler_scope.
Open Scope handler_scope.
Definition skip {S : Type} : S -> S := fun s => s.

(** ** [src/pages/MembershipPlansPage.tsx] *)

Module MembershipPlansPage.
Section Page.
Context `{JSNumber}.

(** *** Data of the remote interface *)

Record MembershipPlan := {
  planId : number;
  planName : jstring;
  price : number;
  durationMonths : number;
  featuresList : jstring
}.

Record User := { userId : jstring; name : jstring }.

Record PlanAssignmentDisplay := {
  assignmentId : number;
  userName : jstring;
  assignment_planName : jstring;
  startDate : jstring;
  endDate : jstring;
  assignment_userId : option jstring;
  assignment_planId : option number
}.

Definition MembershipPlan_fields (p : MembershipPlan) :=
  (planId p, planName p, price p, durationMonths p, featuresList p).

#[export] Instance MembershipPlan_eq_dec : EqDecision MembershipPlan.
Proof.
  intros x y.
  destruct (decide (MembershipPlan_fields x = MembershipPlan_fields y)) as [E|N].
  - left. destruct x, y. injection E as -> -> -> -> ->. reflexivity.
  - right. intros ->. apply N. reflexivity.
Defined.

(** *** Form state *)

Record PlanFormData := {
  form_planName : jstring;
  form_price : jstring;
  form_durationMonths : jstring;
  form_featuresList : jstring
}.

Record AssignFormData := {
  form_userId : jstring;
  form_planId : jstring;
  form_startDate : jstring
}.

Inductive PlanField := f_planName | f_price | f_durationMonths | f_featuresList.
Inductive AssignField := f_userId | f_planId | f_startDate.

Definition emptyPlanForm : PlanFormData :=
  {| form_planName := []; form_price := []; form_durationMonths := [];
     form_featuresList := [] |}.

(** [{ userId: '', planId: '', startDate: format(new Date(), 'yyyy-MM-dd') }] *)
Definition emptyAssignForm (today : jstring) : AssignFormData :=
  {| form_userId := []; form_planId := []; form_startDate := today |}.

(** [{ ...planFormData, [name]: value }] *)
Definition withPlanField (d : PlanFormData) (f : PlanField) (value : jstring) :=
  match f with
  | f_planName =>
      {| form_planName := value; form_price := form_price d;
         form_durationMonths := form_durationMonths d;
         form_featuresList := form_featuresList d |}
  | f_price =>
      {| form_planName := form_planName d; form_price := value;
         form_durationMonths := form_durationMonths d;
         form_featuresList := form_featuresList d |}
  | f_durationMonths =>
      {| form_planName := form_planName d; form_price := form_price d;
         form_durationMonths := value;
         form_featuresList := form_featuresList d |}
  | f_featuresList =>
      {| form_planName := form_planName d; form_price := form_price d;
         form_durationMonths := form_durationMonths d;
         form_featuresList := value |}
  end.

(** [{ ...assignFormData, [name]: value }] *)
Definition withAssignField (d : AssignFormData) (f : AssignField) (value : jstring) :=
  match f with
  | f_userId =>
      {| form_userId := value; form_planId := form_planId d;
         form_startDate := form_startDate d |}
  | f_planId =>
      {| form_userId := form_userId d; form_planId := value;
         form_startDate := form_startDate d |}
  | f_startDate =>
      {| form_userId := form_userId d; form_planId := form_planId d;
         form_startDate := value |}
  end.

(** *** The [useState] cells of the component *)

Record View := {
  plans : list MembershipPlan;
  users : list User;
  planAssignments : list PlanAssignmentDisplay;
  loading : bool;
  error : option jstring;
  showPlanForm : bool;
  editingPlan : option MembershipPlan;
  planFormData : PlanFormData;
  showAssignForm : bool;
  assignFormData : AssignFormData
}.

Definition initialView (today : jstring) : View :=
  {| plans := []; users := []; planAssignments := [];
     loading := true; error := None;
     showPlanForm := false; editingPlan := None; planFormData := emptyPlanForm;
     showAssignForm := false; assignFormData := emptyAssignForm today |}.

(** *** Remote calls *)

Record PlanPayload := {
  payload_planName : jstring;
  payload_price : number;
  payload_durationMonths : number;
  payload_featuresList : jstring
}.

Record AssignmentPayload := {
  payload_userId : jstring;
  payload_planId : number;
  payload_startDate : jstring
}.

(** One constructor per method and path the page calls. *)
Inductive Request :=
| GET_plans
| GET_users
| GET_plans_user_assignments (userId : jstring)
| POST_plans (body : PlanPayload)
| PUT_plans (planId : number) (body : PlanPayload)
| DELETE_plans (planId : number)
| POST_plans_assign (body : AssignmentPayload).

(** [response.data] of a fulfilled call; [other_data] is a body the page
    never reads. *)
Inductive Data :=
| plans_data (d : list MembershipPlan)
| users_data (d : list User)
| assignments_data (d : list PlanAssignmentDisplay)
| other_data.

(** The promise of a call is fulfilled or rejected; the page only logs the
    reason of a rejection. *)
Inductive Reply := Fulfilled (d : Data) | Rejected.

(** The resumption points: one per [await] of the component. *)
Inductive Cont :=
| fetchPlans_await
| fetchUsersForAssignment_await
| fetchAllPlanAssignments_await_users
| fetchAllPlanAssignments_await_user
    (assignments : list PlanAssignmentDisplay) (rest : list User)
| handlePlanFormSubmit_await
| handleDeletePlanClick_await
| handleAssignFormSubmit_await.

Record State := {
  view : View;
  inflight : list (Request * Cont);
  issued : list Request
}.

Definition Handler := State -> State.

Definition on_view (f : View -> View) : Handler := fun s =>
  {| view := f (view s); inflight := inflight s; issued := issued s |}.

(** Issue a call and suspend until it settles. *)
Definition await (req : Request) (k : Cont) : Handler := fun s =>
  {| view := view s;
     inflight := inflight s ++ [(req, k)];
     issued := issued s ++ [req] |}.

Definition settled (i : nat) : Handler := fun s =>
  {| view := view s; inflight := delete i (inflight s); issued := issued s |}.

(** *** State setters *)

Definition setPlans (x : list MembershipPlan) : Handler := on_view (fun v =>
  {| plans := x; users := users v; planAssignments := planAssignments v;
     loading := loading v; error := error v;
     showPlanForm := showPlanForm v; editingPlan := editingPlan v;
     planFormData := planFormData v;
     showAssignForm := showAssignForm v; assignFormData := assignFormData v |}).

Definition setUsers (x : list User) : Handler := on_view (fun v =>
  {| plans := plans v; users := x; planAssignments := planAssignments v;
     loading := loading v; error := error v;
     showPlanForm := showPlanForm v; editingPlan := editingPlan v;
     planFormData := planFormData v;
     showAssignForm := showAssignForm v; assignFormData := assignFormData v |}).

Definition setPlanAssignments (x : list PlanAssignmentDisplay) : Handler :=
  on_view (fun v =>
  {| plans := plans v; users := users v; planAssignments := x;
     loading := loading v; error := error v;
     showPlanForm := showPlanForm v; editingPlan := editingPlan v;
     planFormData := planFormData v;
     showAssignForm := showAssignForm v; assignFormData := assignFormData v |}).

Definition setLoading (x : bool) : Handler := on_view (fun v =>
  {| plans := plans v; users := users v; planAssignments := planAssignments v;
     loading := x; error := error v;
     showPlanForm := showPlanForm v; editingPlan := editingPlan v;
     planFormData := planFormData v;
     showAssignForm := showAssignForm v; assignFormData := assignFormData v |}).

Definition setError (x : option jstring) : Handler := on_view (fun v =>
  {| plans := plans v; users := users v; planAssignments := planAssignments v;
     loading := loading v; error := x;
     showPlanForm := showPlanForm v; editingPlan := editingPlan v;
     planFormData := planFormData v;
     showAssignForm := showAssignForm v; assignFormData := assignFormData v |}).

Definition setShowPlanForm (x : bool) : Handler := on_view (fun v =>
  {| plans := plans v; users := users v; planAssignments := planAssignments v;
     loading := loading v; error := error v;
     showPlanForm := x; editingPlan := editingPlan v;
     planFormData := planFormData v;
     showAssignForm := showAssignForm v; assignFormData := assignFormData v |}).

Definition setEditingPlan (x : option MembershipPlan) : Handler :=
  on_view (fun v =>
  {| plans := plans v; users := users v; planAssignments := planAssignments v;
     loading := loading v; error := error v;
     showPlanForm := showPlanForm v; editingPlan := x;
     planFormData := planFormData v;
     showAssignForm := showAssignForm v; assignFormData := assignFormData v |}).

Definition setPlanFormData (x : PlanFormData) : Handler := on_view (fun v =>
  {| plans := plans v; users := users v; planAssignments := planAssignments v;
     loading := loading v; error := error v;
     showPlanForm := showPlanForm v; editingPlan := editingPlan v;
     planFormData := x;
     showAssignForm := showAssignForm v; assignFormData := assignFormData v |}).

Definition setShowAssignForm (x : bool) : Handler := on_view (fun v =>
  {| plans := plans v; users := users v; planAssignments := planAssignments v;
     loading := loading v; error := error v;
     showPlanForm := showPlanForm v; editingPlan := editingPlan v;
     planFormData := planFormData v;
     showAssignForm := x; assignFormData := assignFormData v |}).

Definition setAssignFormData (x : AssignFormData) : Handler := on_view (fun v =>
  {| plans := plans v; users := users v; planAssignments := planAssignments v;
     loading := loading v; error := error v;
     showPlanForm := showPlanForm v; editingPlan := editingPlan v;
     planFormData := planFormData v;
     showAssignForm := showAssignForm v; assignFormData := x |}).

(** *** The fetch functions, up to their first [await] *)

Definition fetchPlans : Handler :=
  setLoading true ;; await GET_plans fetchPlans_await.

Definition fetchUsersForAssignment : Handler :=
  await GET_users fetchUsersForAssignment_await.

Definition fetchAllPlanAssignments : Handler :=
  setLoading true ;; await GET_users fetchAllPlanAssignments_await_users.

(** The [for ... of] loop of [fetchAllPlanAssignments], entered with the
    assignments pushed so far and the users still to visit: it suspends on
    the next user's call, and past the last user it runs the end of the
    [try] block and the [finally] block. *)
Definition fetchAllPlanAssignments_loop
    (assignments : list PlanAssignmentDisplay) (todo : list User) : Handler :=
  match todo with
  | user :: rest =>
      await (GET_plans_user_assignments (userId user))
            (fetchAllPlanAssignments_await_user assignments rest)
  | [] => setPlanAssignments assignments ;; setLoading false
  end.

(** *** Event handlers, up to their first [await] *)

Definition planPayload (d : PlanFormData) : PlanPayload :=
  {| payload_planName := form_planName d;
     payload_price := parseFloat (form_price d);
     payload_durationMonths := parseInt (form_durationMonths d);
     payload_featuresList := form_featuresList d |}.

Definition assignmentPayload (d : AssignFormData) : AssignmentPayload :=
  {| payload_userId := form_userId d;
     payload_planId := parseInt (form_planId d);
     payload_startDate := form_startDate d |}.

Definition handlePlanInputChange (f : PlanField) (value : jstring) : Handler :=
  fun s => setPlanFormData (withPlanField (planFormData (view s)) f value) s.

Definition handlePlanFormSubmit : Handler := fun s =>
  (setError None ;; setLoading true ;;
   match editingPlan (view s) with
   | Some p =>
       await (PUT_plans (planId p) (planPayload (planFormData (view s))))
             handlePlanFormSubmit_await
   | None =>
       await (POST_plans (planPayload (planFormData (view s))))
             handlePlanFormSubmit_await
   end) s.

Definition handleEditPlanClick (plan : MembershipPlan) : Handler :=
  setEditingPlan (Some plan) ;;
  setPlanFormData
    {| form_planName := planName plan;
       form_price := numberToString (price plan);
       form_durationMonths := numberToString (durationMonths plan);
       form_featuresList := featuresList plan |} ;;
  setShowPlanForm true.

(** [confirmed] is the answer of [window.confirm]. *)
Definition handleDeletePlanClick (planId : number) (confirmed : bool) : Handler :=
  if confirmed
  then setLoading true ;; await (DELETE_plans planId) handleDeletePlanClick_await
  else skip.

Definition handleAssignInputChange (f : AssignField) (value : jstring) : Handler :=
  fun s => setAssignFormData (withAssignField (assignFormData (view s)) f value) s.

Definition handleAssignFormSubmit : Handler := fun s =>
  (setError None ;; setLoading true ;;
   await (POST_plans_assign (assignmentPayload (assignFormData (view s))))
         handleAssignFormSubmit_await) s.

(** The inline [onClick] handlers of the two toggle buttons and of the
    Cancel Edit button. *)
Definition onClick_togglePlanForm : Handler := fun s =>
  (setShowPlanForm (negb (showPlanForm (view s))) ;;
   setEditingPlan None ;;
   setPlanFormData emptyPlanForm ;;
   setShowAssignForm false) s.

Definition onClick_toggleAssignForm (today : jstring) : Handler := fun s =>
  (setShowAssignForm (negb (showAssignForm (view s))) ;;
   setAssignFormData (emptyAssignForm today) ;;
   setShowPlanForm false) s.

Definition onClick_cancelEdit : Handler :=
  setEditingPlan None ;; setShowPlanForm false ;; setPlanFormData emptyPlanForm.

(** *** Resumption after an [await]

    [resume today k r] is the rest of the [async] function suspended at [k]
    when its call settles with [r], up to its next [await] or its end:
    the rest of the [try] block on a fulfilled call, the [catch] block on a
    rejected one, then the [finally] block.  A fulfilled call whose body is
    not of the type the call was made at gives [None]. *)
Definition resume (today : jstring) (k : Cont) (r : Reply) : option Handler :=
  match k, r with
  | fetchPlans_await, Fulfilled (plans_data d) =>
      Some (setPlans d ;; setError None ;; setLoading false)
  | fetchPlans_await, Rejected =>
      Some (setError (Some (js
        "Failed to load plans. Please ensure the backend is running and you are logged in.")) ;;
            setLoading false)
  | fetchUsersForAssignment_await, Fulfilled (users_data d) =>
      Some (setUsers
              (map (fun user => {| userId := userId user; name := name user |}) d))
  | fetchUsersForAssignment_await, Rejected => Some skip
  | fetchAllPlanAssignments_await_users, Fulfilled (users_data d) =>
      Some (fetchAllPlanAssignments_loop [] d)
  | fetchAllPlanAssignments_await_user assignments rest,
    Fulfilled (assignments_data d) =>
      Some (fetchAllPlanAssignments_loop (assignments ++ d) rest)
  | fetchAllPlanAssignments_await_users, Rejected
  | fetchAllPlanAssignments_await_user _ _, Rejected =>
      Some (setError (Some (js "Failed to load plan assignments.")) ;;
            setLoading false)
  | handlePlanFormSubmit_await, Fulfilled _ =>
      Some (setShowPlanForm false ;;
            setEditingPlan None ;;
            setPlanFormData emptyPlanForm ;;
            fetchPlans ;;
            fetchAllPlanAssignments ;;
            setLoading false)
  | handlePlanFormSubmit_await, Rejected =>
      Some (setError (Some (js "Failed to save plan. Please check your input.")) ;;
            setLoading false)
  | handleDeletePlanClick_await, Fulfilled _ =>
      Some (fetchPlans ;; fetchAllPlanAssignments ;; setLoading false)
  | handleDeletePlanClick_await, Rejected =>
      Some (setError (Some (js "Failed to delete plan.")) ;; setLoading false)
  | handleAssignFormSubmit_await, Fulfilled _ =>
      Some (setShowAssignForm false ;;
            setAssignFormData (emptyAssignForm today) ;;
            fetchAllPlanAssignments ;;
            fetchUsersForAssignment ;;
            setLoading false)
  | handleAssignFormSubmit_await, Rejected =>
      Some (setError (Some (js "Failed to assign plan. Ensure user and plan exist.")) ;;
            setLoading false)
  | _, Fulfilled _ => None
  end.

(** *** What is rendered *)

(** [disabled={loading}] on the submit button of both forms. *)
Definition submitDisabled (v : View) : bool := loading v.

(** The plans table: [loading && !plans.length ? ... : (plans.length === 0
    ? ... : <table>)]. *)
Definition plansTableShown (v : View) : bool :=
  if loading v && bool_decide (length (plans v) = 0) then false
  else if bool_decide (length (plans v) = 0) then false
  else true.

(** *** Events *)

Inductive Event :=
| click_togglePlanForm
| click_toggleAssignForm
| change_planInput (f : PlanField) (value : jstring)
| submit_planForm
| click_cancelEdit
| click_editPlan (plan : MembershipPlan)
| click_deletePlan (plan : MembershipPlan) (confirmed : bool)
| change_assignInput (f : AssignField) (value : jstring)
| submit_assignForm
| settle (i : nat) (r : Reply).

(** The [required] inputs of the two forms (the features text area is not
    required): the browser does not submit a form with one of them empty. *)
Definition planFormFilled (d : PlanFormData) : bool :=
  truthy (form_planName d) && truthy (form_price d)
  && truthy (form_durationMonths d).

Definition assignFormFilled (d : AssignFormData) : bool :=
  truthy (form_userId d) && truthy (form_planId d)
  && truthy (form_startDate d).

(** A user event needs its control rendered and enabled. *)
Definition enabled (v : View) (e : Event) : bool :=
  match e with
  | click_togglePlanForm | click_toggleAssignForm => true
  | change_planInput _ _ => showPlanForm v
  | submit_planForm =>
      showPlanForm v && negb (submitDisabled v)
      && planFormFilled (planFormData v)
  | click_cancelEdit => showPlanForm v && bool_decide (is_Some (editingPlan v))
  | click_editPlan plan | click_deletePlan plan _ =>
      plansTableShown v && bool_decide (plan ∈ plans v)
  | change_assignInput _ _ => showAssignForm v
  | submit_assignForm =>
      showAssignForm v && negb (submitDisabled v)
      && assignFormFilled (assignFormData v)
  | settle _ _ => true
  end.

Definition handle (today : jstring) (e : Event) : Handler :=
  match e with
  | click_togglePlanForm => onClick_togglePlanForm
  | click_toggleAssignForm => onClick_toggleAssignForm today
  | change_planInput f value => handlePlanInputChange f value
  | submit_planForm => handlePlanFormSubmit
  | click_cancelEdit => onClick_cancelEdit
  | click_editPlan plan => handleEditPlanClick plan
  | click_deletePlan plan confirmed => handleDeletePlanClick (planId plan) confirmed
  | change_assignInput f value => handleAssignInputChange f value
  | submit_assignForm => handleAssignFormSubmit
  | settle _ _ => skip
  end.

(** One turn of the event loop; [today] is the clock read by
    [format(new Date(), 'yyyy-MM-dd')] during that turn. *)
Definition step (today : jstring) (s : State) (e : Event) : option State :=
  match e with
  | settle i r =>
      match inflight s !! i with
      | Some (_, k) =>
          match resume today k r with
          | Some h => Some (h (settled i s))
          | None => None
          end
      | None => None
      end
  | _ => if enabled (view s) e then Some (handle today e s) else None
  end.

Fixpoint run (s : State) (trace : list (jstring * Event)) : option State :=
  match trace with
  | [] => Some s
  | (today, e) :: trace' =>
      match step today s e with
      | Some s' => run s' trace'
      | None => None
      end
  end.

(** The first render followed by the mount effect. *)
Definition mount (today : jstring) : State :=
  (fetchPlans ;; fetchUsersForAssignment ;; fetchAllPlanAssignments)
    {| view := initialView today; inflight := []; issued := [] |}.

Inductive reachable : State -> Prop :=
| reachable_mount today : reachable (mount today)
| reachable_step today s e s' :
    reachable s -> step today s e = Some s' -> reachable s'.

(** The calls in flight that were issued by a submission of the plan form. *)
Definition is_planSubmit (c : Request * Cont) : bool :=
  match c.2 with handlePlanFormSubmit_await => true | _ => false end.

Definition planSubmissionsInFlight (s : State) : nat :=
  length (List.filter is_planSubmit (inflight s)).

(** *** Properties of the page *)

Lemma plans_step_settle_last today s l req k r h :
  inflight s = l ++ [(req, k)] ->
  resume today k r = Some h ->
  step today s (settle (length l) r)
  = Some (h {| view := view s; inflight := l; issued := issued s |}).
Proof.
  intros Hl Hk. unfold step, settled.
  rewrite Hl, list_lookup_middle by reflexivity.
  rewrite Hk, delete_middle, app_nil_r. reflexivity.
Qed.

(** The reply [data] of a member's call, as an event settling the call at
    position [n]. *)
Definition assignmentsFulfilled (today : jstring) (n : nat)
    (data : list PlanAssignmentDisplay) : jstring * Event :=
  (today, settle n (Fulfilled (assignments_data data))).

Definition assignmentsRequest (member : User) : Request :=
  GET_plans_user_assignments (userId member).

(** Running the loop over the members [done.*1], each call fulfilled with
    its list of [done.*2], leads to the loop entered with all these lists
    pushed, in order, and to nothing else. *)
Lemma loop_prefix today (done : list (User * list PlanAssignmentDisplay)) :
  forall t assignments todo trace,
  run (fetchAllPlanAssignments_loop assignments (done.*1 ++ todo) t)
      (map (assignmentsFulfilled today (length (inflight t))) done.*2 ++ trace)
  = run (fetchAllPlanAssignments_loop (assignments ++ concat done.*2) todo
           {| view := view t; inflight := inflight t;
              issued := issued t ++ map assignmentsRequest done.*1 |})
        trace.
Proof.
  induction done as [|[member data] done IH]; intros t assignments todo trace.
  - cbn. rewrite !app_nil_r. destruct t; reflexivity.
  - cbn [fmap list_fmap fst snd map app concat run assignmentsFulfilled
         fetchAllPlanAssignments_loop].
    erewrite (plans_step_settle_last today _ (inflight t)); [|reflexivity..].
    specialize (IH {| view := view t; inflight := inflight t;
                      issued := issued t ++ [assignmentsRequest member] |}
                   (assignments ++ data) todo trace).
    cbn [view inflight issued] in IH. cbn [await view inflight issued].
    etrans; [exact IH|]. rewrite <- !app_assoc. reflexivity.
Qed.

(** C1. [fetchAllPlanAssignments] first fetches the member list, then
    fetches each member's assignments in member-list order, and once every
    call is fulfilled the displayed assignment list is the concatenation of
    the per-member lists, in member-list order and, within a member, in the
    order of the reply: for members [m1..mN] with replies [r1..rN] it is
    [r1 ++ ... ++ rN]. *)
Theorem fetchAllPlanAssignments_concatenates
    today (s : State) (fetched : list (User * list PlanAssignmentDisplay)) :
  let n := length (inflight s) in
  exists s',
    run (fetchAllPlanAssignments s)
        ((today, settle n (Fulfilled (users_data fetched.*1)))
           :: map (assignmentsFulfilled today n) fetched.*2)
    = Some s'
    /\ planAssignments (view s') = concat fetched.*2
    /\ issued s' = issued s ++ GET_users :: map assignmentsRequest fetched.*1
    /\ inflight s' = inflight s
    /\ loading (view s') = false.
Proof.
  intros n. eexists. split.
  - cbn [run]. unfold fetchAllPlanAssignments, seq at 1.
    erewrite (plans_step_settle_last today _ (inflight s)); [|reflexivity..].
    cbn [view inflight issued await].
    pose proof (loop_prefix today fetched
      {| view := view (setLoading true s); inflight := inflight s;
         issued := issued (setLoading true s) ++ [GET_users] |} [] [] [])
      as Hloop.
    rewrite !app_nil_r in Hloop. cbn [inflight] in Hloop.
    fold n in Hloop. rewrite Hloop. cbn [run]. reflexivity.
  - cbn. rewrite <- app_assoc. auto.
Qed.

Definition loadAssignmentsError : jstring := js "Failed to load plan assignments.".

(** The calls a step issues are the ones it appends to the history. *)
Definition newlyIssued (s s' : State) : list Request :=
  drop (length (issued s)) (issued s').

Lemma plans_newlyIssued_app s s' new :
  issued s' = issued s ++ new -> newlyIssued s s' = new.
Proof. intros E. unfold newlyIssued. rewrite E. apply drop_app_length. Qed.

(** The continuations of [fetchAllPlanAssignments]. *)
Definition aggregating (k : Cont) : bool :=
  match k with
  | fetchAllPlanAssignments_await_users
  | fetchAllPlanAssignments_await_user _ _ => true
  | _ => false
  end.

(** Whatever else is in flight, the rejection of a call of the aggregation
    ends it: the error is set, no further call is issued, and the list
    displayed is not touched. *)
Lemma aggregation_rejected today s i req k :
  inflight s !! i = Some (req, k) ->
  aggregating k = true ->
  exists s',
    step today s (settle i Rejected) = Some s'
    /\ planAssignments (view s') = planAssignments (view s)
    /\ error (view s') = Some loadAssignmentsError
    /\ newlyIssued s s' = []
    /\ inflight s' = delete i (inflight s).
Proof.
  intros Hi Hk. destruct k; try discriminate Hk.
  all: eexists; split; [cbn [step]; rewrite Hi; reflexivity|].
  all: repeat split; apply plans_newlyIssued_app; cbn; symmetry; apply app_nil_r.
Qed.

(** C2. When the member-list call of [fetchAllPlanAssignments] is rejected,
    or the call of any single member is rejected after the calls of the
    members before it were fulfilled, the aggregation ends in failure: the
    error message is set, and the displayed assignment list is the one
    displayed before the operation started (stale, not cleared).  The
    members after the failing one are not fetched.  The same holds of the
    rejection of any call of an aggregation, whatever else is in flight. *)
Theorem fetchAllPlanAssignments_all_or_nothing
    today (s : State) (done : list (User * list PlanAssignmentDisplay))
    (failing : User) (rest : list User) :
  let n := length (inflight s) in
  (exists s',
     run (fetchAllPlanAssignments s) [(today, settle n Rejected)] = Some s'
     /\ planAssignments (view s') = planAssignments (view s)
     /\ error (view s') = Some loadAssignmentsError
     /\ loading (view s') = false
     /\ inflight s' = inflight s)
  /\
  (exists s',
     run (fetchAllPlanAssignments s)
         ((today, settle n (Fulfilled (users_data (done.*1 ++ failing :: rest))))
            :: map (assignmentsFulfilled today n) done.*2
            ++ [(today, settle n Rejected)])
     = Some s'
     /\ planAssignments (view s') = planAssignments (view s)
     /\ error (view s') = Some loadAssignmentsError
     /\ loading (view s') = false
     /\ inflight s' = inflight s
     /\ issued s' = issued s ++ GET_users
                      :: map assignmentsRequest (done.*1 ++ [failing]))
  /\
  (forall t i req k,
     inflight t !! i = Some (req, k) ->
     aggregating k = true ->
     exists t',
       step today t (settle i Rejected) = Some t'
       /\ planAssignments (view t') = planAssignments (view t)
       /\ error (view t') = Some loadAssignmentsError
       /\ newlyIssued t t' = []
       /\ inflight t' = delete i (inflight t)).
Proof.
  intros n. split; [|split; [|apply aggregation_rejected]].
  - eexists. split.
    + cbn [run]. unfold fetchAllPlanAssignments, seq at 1.
      erewrite (plans_step_settle_last today _ (inflight s)); [|reflexivity..].
      reflexivity.
    + cbn. auto.
  - eexists. split.
    + cbn [run]. unfold fetchAllPlanAssignments, seq at 1.
      erewrite (plans_step_settle_last today _ (inflight s)); [|reflexivity..].
      cbn [view inflight issued await].
      pose proof (loop_prefix today done
        {| view := view (setLoading true s); inflight := inflight s;
           issued := issued (setLoading true s) ++ [GET_users] |}
        [] (failing :: rest) [(today, settle n Rejected)]) as Hloop.
      cbn [inflight] in Hloop. fold n in Hloop. rewrite Hloop.
      cbn [run fetchAllPlanAssignments_loop].
      erewrite (plans_step_settle_last today _ (inflight s)); [|reflexivity..].
      reflexivity.
    + cbn. rewrite map_app, <- !app_assoc. auto.
Qed.

(** C5 on the code: after the plan list has loaded, opening the assign
    form and then clicking Edit on a plan row leaves the plan form and the
    assign form both visible. *)
Theorem editPlan_leaves_assignForm_open
    today (plan : MembershipPlan) (others : list MembershipPlan) :
  exists s,
    run (mount today)
        [ (today, settle 0 (Fulfilled (plans_data (plan :: others))));
          (today, click_toggleAssignForm);
          (today, click_editPlan plan) ]
    = Some s
    /\ showPlanForm (view s) = true
    /\ showAssignForm (view s) = true.
Proof.
  eexists. split.
  - cbn [run]. cbn [step mount]. cbn.
    rewrite bool_decide_false by discriminate.
    rewrite bool_decide_true by (apply list_elem_of_here).
    reflexivity.
  - cbn. auto.
Qed.

Ltac issued_by_step H :=
  erewrite plans_newlyIssued_app in H
    by first [ cbn; rewrite <- ?app_assoc; reflexivity
             | cbn; symmetry; apply app_nil_r ];
  cbn in H;
  repeat (apply elem_of_cons in H as [H|H]; [discriminate H|]);
  try (apply elem_of_nil in H; contradiction).

(** A [DELETE /plans/{id}] is only issued by a click on the Delete button
    of a plan row that was confirmed in the dialog. *)
Lemma delete_needs_confirmation today s e s' id :
  step today s e = Some s' ->
  DELETE_plans id ∈ newlyIssued s s' ->
  exists plan, e = click_deletePlan plan true /\ planId plan = id.
Proof.
  intros Hstep Hin. destruct e; cbn [step] in Hstep.
  1-9: destruct (enabled _ _); [|discriminate Hstep];
       injection Hstep as <-.
  4: destruct (editingPlan (view s)) eqn:Hediting;
       unfold handle, handlePlanFormSubmit in Hin; rewrite Hediting in Hin.
  1-7, 9-10: issued_by_step Hin.
  - destruct confirmed.
    + erewrite plans_newlyIssued_app in Hin by (cbn; reflexivity).
      apply list_elem_of_singleton in Hin. injection Hin as ->. eauto.
    + issued_by_step Hin.
  - destruct (inflight s !! i) as [[req k]|]; [|discriminate Hstep].
    destruct (resume today k r) as [h|] eqn:Hk; [|discriminate Hstep].
    injection Hstep as <-.
    destruct k, r as [[d|d|d|]|]; cbn in Hk; try discriminate Hk;
      injection Hk as <-;
      try (destruct d); try (destruct rest); issued_by_step Hin.
Qed.

(** C8. Once the [DELETE] of a plan is fulfilled, the page issues the two
    refreshes: the plan list ([GET /plans]) and the whole assignment
    aggregation, which starts again from the member list ([GET /users]);
    and a [DELETE] is only ever issued by a Delete click that was confirmed
    in the dialog, a declined one changing nothing. *)
Theorem deletePlan_refreshes_plans_and_assignments today s i req d :
  inflight s !! i = Some (req, handleDeletePlanClick_await) ->
  (exists s',
     step today s (settle i (Fulfilled d)) = Some s'
     /\ newlyIssued s s' = [GET_plans; GET_users]
     /\ inflight s' = delete i (inflight s)
                        ++ [ (GET_plans, fetchPlans_await);
                             (GET_users, fetchAllPlanAssignments_await_users) ])
  /\ (forall s0 e s0' id,
        step today s0 e = Some s0' ->
        DELETE_plans id ∈ newlyIssued s0 s0' ->
        exists plan, e = click_deletePlan plan true /\ planId plan = id)
  /\ (forall s0 plan, handle today (click_deletePlan plan false) s0 = s0).
Proof.
  intros Hi. split; [|split].
  - eexists. split; [|split].
    + cbn [step]. rewrite Hi. cbn [resume]. reflexivity.
    + apply plans_newlyIssued_app. cbn. rewrite <- app_assoc. reflexivity.
    + cbn. rewrite <- app_assoc. reflexivity.
  - intros s0 e s0' id. apply delete_needs_confirmation.
  - reflexivity.
Qed.

(** Submitting the plan form raises the page-wide [loading] flag, which
    disables the submit button, and puts one more submission in flight. *)
Lemma planForm_submit_disables today s :
  enabled (view s) submit_planForm = true ->
  exists s',
    step today s submit_planForm = Some s'
    /\ submitDisabled (view s') = true
    /\ planSubmissionsInFlight s' = S (planSubmissionsInFlight s).
Proof.
  intros He. eexists. split; [|split].
  - cbn [step]. rewrite He. reflexivity.
  - unfold handle, handlePlanFormSubmit.
    destruct (editingPlan (view s)); reflexivity.
  - unfold planSubmissionsInFlight, handle, handlePlanFormSubmit.
    destruct (editingPlan (view s)); cbn;
      rewrite List.filter_app, length_app; cbn; lia.
Qed.

(** X3. When a submission of the plan form settles, fulfilled or rejected,
    the [finally] block lowers [loading]: the submit button is enabled
    again. *)
Lemma planForm_settle_enables today s i req r :
  inflight s !! i = Some (req, handlePlanFormSubmit_await) ->
  exists s',
    step today s (settle i r) = Some s' /\ submitDisabled (view s') = false.
Proof.
  intros Hi. destruct r as [d|]; eexists; (split;
    [cbn [step]; rewrite Hi; cbn [resume]; reflexivity | reflexivity]).
Qed.

(** C4 on the code, Membership Plans page.  The submit button of the plan
    form follows the page-wide [loading] flag, which the list fetches raise
    and lower too.  Right after the mount the open form has its button
    disabled with no submission in flight; and when a list fetch settles
    while a submission is in flight, the button is enabled again, and a
    second submission can be sent before the first has settled. *)
Theorem submit_enabled_during_submission today :
  let fillIn :=
    [ (today, click_togglePlanForm);
      (today, change_planInput f_planName (js "Gold"));
      (today, change_planInput f_price (js "49.50"));
      (today, change_planInput f_durationMonths (js "12")) ] in
  (exists s,
     run (mount today) [(today, click_togglePlanForm)] = Some s
     /\ showPlanForm (view s) = true
     /\ submitDisabled (view s) = true
     /\ planSubmissionsInFlight s = 0)
  /\ (exists s,
        run (mount today)
            ((today, settle 0 (Fulfilled (plans_data [])))
               :: fillIn
               ++ [ (today, submit_planForm);
                    (today, settle 1 (Fulfilled (users_data []))) ])
        = Some s
        /\ showPlanForm (view s) = true
        /\ submitDisabled (view s) = false
        /\ planSubmissionsInFlight s = 1
        /\ exists s',
             step today s submit_planForm = Some s'
             /\ planSubmissionsInFlight s' = 2).
Proof.
  intros fillIn. split.
  - eexists. split; [cbv; reflexivity|]. repeat split.
  - eexists. split; [cbv; reflexivity|]. do 3 (split; [reflexivity|]).
    eexists. split; [cbv; reflexivity | reflexivity].
Qed.

(** *** Further properties: the two forms *)

(** The call a submission of the plan form issues: [PUT /plans/{id}] when a
    plan is being edited, [POST /plans] otherwise. *)
Definition savePlanRequest (v : View) : Request :=
  match editingPlan v with
  | Some p => PUT_plans (planId p) (planPayload (planFormData v))
  | None => POST_plans (planPayload (planFormData v))
  end.

Lemma step_submit_planForm today s :
  enabled (view s) submit_planForm = true ->
  step today s submit_planForm
  = Some ((setError None ;; setLoading true ;;
           await (savePlanRequest (view s)) handlePlanFormSubmit_await) s).
Proof.
  intros He. cbn [step]. rewrite He. cbn [handle].
  unfold handlePlanFormSubmit, savePlanRequest.
  destruct (editingPlan (view s)); reflexivity.
Qed.

Definition savePlanFailed : jstring :=
  js "Failed to save plan. Please check your input.".

(** X4. A submission of the plan form sends the form as a
    [PUT /plans/{id}] when a plan is being edited and as a [POST /plans]
    otherwise.  When it is fulfilled the form is closed and emptied, the
    plan being edited is forgotten, and the plan list and the assignment
    aggregation are both requested again, the plan list on display being
    left as it is until the fetch returns.  When it is rejected the form
    stays open with the values entered, the error is shown and nothing is
    requested. *)
Theorem handlePlanFormSubmit_contract submitted today (s : State) :
  enabled (view s) submit_planForm = true ->
  let n := length (inflight s) in
  (forall d,
     exists s',
       run s [(submitted, submit_planForm); (today, settle n (Fulfilled d))]
       = Some s'
       /\ newlyIssued s s' = [savePlanRequest (view s); GET_plans; GET_users]
       /\ inflight s'
          = inflight s ++ [ (GET_plans, fetchPlans_await);
                            (GET_users, fetchAllPlanAssignments_await_users) ]
       /\ showPlanForm (view s') = false
       /\ editingPlan (view s') = None
       /\ planFormData (view s') = emptyPlanForm
       /\ plans (view s') = plans (view s))
  /\ (exists s',
        run s [(submitted, submit_planForm); (today, settle n Rejected)]
        = Some s'
        /\ newlyIssued s s' = [savePlanRequest (view s)]
        /\ inflight s' = inflight s
        /\ showPlanForm (view s') = true
        /\ editingPlan (view s') = editingPlan (view s)
        /\ planFormData (view s') = planFormData (view s)
        /\ plans (view s') = plans (view s)
        /\ error (view s') = Some savePlanFailed).
Proof.
  intros He n. pose proof (step_submit_planForm submitted s He) as Hsubmit.
  assert (showPlanForm (view s) = true) as Hshown.
  { cbn in He. apply andb_true_iff in He as [He _].
    apply andb_true_iff in He as [He _]. exact He. }
  split.
  - intros d. eexists. split; [|split].
    + cbn [run]. rewrite Hsubmit.
      erewrite (plans_step_settle_last today _ (inflight s)); [|reflexivity..].
      reflexivity.
    + apply plans_newlyIssued_app. cbn. rewrite <- !app_assoc. reflexivity.
    + split; [cbn; rewrite <- app_assoc; reflexivity|].
      do 3 (split; [reflexivity|]). reflexivity.
  - eexists. split; [|split].
    + cbn [run]. rewrite Hsubmit.
      erewrite (plans_step_settle_last today _ (inflight s)); [|reflexivity..].
      reflexivity.
    + apply plans_newlyIssued_app. reflexivity.
    + split; [reflexivity|]. split; [exact Hshown|].
      do 3 (split; [reflexivity|]). reflexivity.
Qed.

(** The form as [handleEditPlanClick] fills it in from a plan row. *)
Definition planFormOf (plan : MembershipPlan) : PlanFormData :=
  {| form_planName := planName plan;
     form_price := numberToString (price plan);
     form_durationMonths := numberToString (durationMonths plan);
     form_featuresList := featuresList plan |}.

(** X5. Clicking Edit on a plan row and then saving, with nothing loading
    and the row's name and numbers printing to non-empty text, sends one
    [PUT /plans/{id}] to the id of that row, whose body is the row's name
    and features and the row's price and duration printed and parsed back;
    whatever plan was being edited before is forgotten. *)
Theorem editPlan_then_save_updates_that_plan today (s : State) plan :
  enabled (view s) (click_editPlan plan) = true ->
  loading (view s) = false ->
  planFormFilled (planFormOf plan) = true ->
  exists s',
    run s [(today, click_editPlan plan); (today, submit_planForm)] = Some s'
    /\ newlyIssued s s'
       = [ PUT_plans (planId plan)
             {| payload_planName := planName plan;
                payload_price := parseFloat (numberToString (price plan));
                payload_durationMonths :=
                  parseInt (numberToString (durationMonths plan));
                payload_featuresList := featuresList plan |} ]
    /\ editingPlan (view s') = Some plan
    /\ submitDisabled (view s') = true.
Proof.
  intros He Hloading Hfilled. eexists. split; [|split].
  - cbn [run step]. rewrite He. cbn [handle].
    assert (enabled (view (handleEditPlanClick plan s)) submit_planForm = true)
      as ->.
    { cbn. rewrite Hloading. exact Hfilled. }
    reflexivity.
  - apply plans_newlyIssued_app. reflexivity.
  - split; reflexivity.
Qed.

Definition assignPlanFailed : jstring :=
  js "Failed to assign plan. Ensure user and plan exist.".

(** X6. A submission of the assign form posts the member id, the plan id
    parsed as an integer and the start date.  When it is fulfilled the form
    is closed and reset (start date today), and the assignment aggregation
    and the member drop-down are both requested again, the assignments on
    display being left as they are until the aggregation ends.  When it is
    rejected the form stays open with the values entered, the error is
    shown and nothing is requested. *)
Theorem handleAssignFormSubmit_contract submitted today (s : State) :
  enabled (view s) submit_assignForm = true ->
  let n := length (inflight s) in
  let body := assignmentPayload (assignFormData (view s)) in
  payload_userId body = form_userId (assignFormData (view s))
  /\ payload_planId body = parseInt (form_planId (assignFormData (view s)))
  /\ payload_startDate body = form_startDate (assignFormData (view s))
  /\ (forall d,
        exists s',
          run s [(submitted, submit_assignForm); (today, settle n (Fulfilled d))]
          = Some s'
          /\ newlyIssued s s' = [POST_plans_assign body; GET_users; GET_users]
          /\ inflight s'
             = inflight s ++ [ (GET_users, fetchAllPlanAssignments_await_users);
                               (GET_users, fetchUsersForAssignment_await) ]
          /\ showAssignForm (view s') = false
          /\ assignFormData (view s') = emptyAssignForm today
          /\ planAssignments (view s') = planAssignments (view s)
          /\ users (view s') = users (view s))
  /\ (exists s',
        run s [(submitted, submit_assignForm); (today, settle n Rejected)]
        = Some s'
        /\ newlyIssued s s' = [POST_plans_assign body]
        /\ inflight s' = inflight s
        /\ showAssignForm (view s') = true
        /\ assignFormData (view s') = assignFormData (view s)
        /\ error (view s') = Some assignPlanFailed).
Proof.
  intros He n body.
  assert (step submitted s submit_assignForm = Some (handleAssignFormSubmit s))
    as Hsubmit by (cbn [step]; rewrite He; reflexivity).
  assert (showAssignForm (view s) = true) as Hshown.
  { cbn in He. apply andb_true_iff in He as [He _].
    apply andb_true_iff in He as [He _]. exact He. }
  do 3 (split; [reflexivity|]). split.
  - intros d. eexists. split; [|split].
    + cbn [run]. rewrite Hsubmit.
      erewrite (plans_step_settle_last today _ (inflight s)); [|reflexivity..].
      reflexivity.
    + apply plans_newlyIssued_app. cbn. rewrite <- !app_assoc. reflexivity.
    + split; [cbn; rewrite <- app_assoc; reflexivity|].
      do 3 (split; [reflexivity|]). reflexivity.
  - eexists. split; [|split].
    + cbn [run]. rewrite Hsubmit.
      erewrite (plans_step_settle_last today _ (inflight s)); [|reflexivity..].
      reflexivity.
    + apply plans_newlyIssued_app. reflexivity.
    + split; [reflexivity|]. split; [exact Hshown|]. split; reflexivity.
Qed.

(** *** Further properties: what a turn may change *)

Lemma users_projection_id (d : list User) :
  map (fun user => {| userId := userId user; name := name user |}) d = d.
Proof. induction d as [|[id nm] d IH]; cbn; [|rewrite IH]; reflexivity. Qed.

Ltac left_as_it_was :=
  let Hne := fresh in intros Hne; exfalso; apply Hne; reflexivity.

(** X7. The three lists on display are never patched locally.  In any
    turn, the plan list changes only when a [GET /plans] is fulfilled, and
    becomes the reply; the member drop-down changes only when its own
    [GET /users] is fulfilled, and becomes the reply; the assignment list
    changes only when an aggregation ends, on the reply of its last member
    (it becomes the replies accumulated, that one last) or on an empty
    member list (it becomes empty). *)
Theorem lists_written_only_by_their_fetch today s e s' :
  step today s e = Some s' ->
  (plans (view s') <> plans (view s) ->
   exists i req d,
     e = settle i (Fulfilled (plans_data d))
     /\ inflight s !! i = Some (req, fetchPlans_await)
     /\ plans (view s') = d)
  /\ (users (view s') <> users (view s) ->
      exists i req d,
        e = settle i (Fulfilled (users_data d))
        /\ inflight s !! i = Some (req, fetchUsersForAssignment_await)
        /\ users (view s') = d)
  /\ (planAssignments (view s') <> planAssignments (view s) ->
      exists i req,
        (exists assignments d,
           e = settle i (Fulfilled (assignments_data d))
           /\ inflight s !! i
              = Some (req, fetchAllPlanAssignments_await_user assignments [])
           /\ planAssignments (view s') = assignments ++ d)
        \/ (e = settle i (Fulfilled (users_data []))
            /\ inflight s !! i = Some (req, fetchAllPlanAssignments_await_users)
            /\ planAssignments (view s') = [])).
Proof.
  intros Hstep. destruct e; cbn [step] in Hstep.
  1-9: destruct (enabled _ _); [|discriminate Hstep];
       injection Hstep as <-; cbn [handle].
  4: unfold handlePlanFormSubmit; destruct (editingPlan (view s)).
  8: destruct confirmed.
  1-11: repeat split; left_as_it_was.
  destruct (inflight s !! i) as [[req k]|] eqn:Hi; [|discriminate Hstep].
  destruct (resume today k r) as [h|] eqn:Hk; [|discriminate Hstep].
  injection Hstep as <-.
  destruct k, r as [[d|d|d|]|]; cbn in Hk; try discriminate Hk;
    injection Hk as <-.
  all: try (destruct d as [|user d]); try (destruct rest as [|user' rest]).
  all: repeat split; try left_as_it_was; intros _.
  1-2: eexists _, _, _; split; [reflexivity|]; split; [exact Hi | reflexivity].
  1-2: eexists _, _, _; split; [reflexivity|]; split;
         [exact Hi | apply (users_projection_id _)].
  - exists i, req. right. auto.
  - exists i, req. left. eexists _, _. split; [reflexivity|].
    split; [exact Hi | reflexivity].
  - exists i, req. left. eexists _, _. split; [reflexivity|].
    split; [exact Hi | reflexivity].
Qed.

(** X8. The error on display is only ever cleared by the submission of one
    of the two forms or by a fulfilled [GET /plans]: any other turn that
    starts with an error ends with one.  In particular an aggregation that
    succeeds does not remove the error of one that failed before. *)
Theorem error_cleared_only_by_submit_or_plans today s e s' m :
  step today s e = Some s' ->
  error (view s) = Some m ->
  error (view s') = None ->
  e = submit_planForm \/ e = submit_assignForm
  \/ exists i req d,
       e = settle i (Fulfilled (plans_data d))
       /\ inflight s !! i = Some (req, fetchPlans_await).
Proof.
  intros Hstep Herror Hnone. destruct e; cbn [step] in Hstep.
  1-9: destruct (enabled _ _); [|discriminate Hstep];
       injection Hstep as <-; cbn [handle] in Hnone.
  4: left; reflexivity.
  8: right; left; reflexivity.
  6: destruct confirmed.
  1-8: cbn in Hnone; unfold skip in Hnone; congruence.
  destruct (inflight s !! i) as [[req k]|] eqn:Hi; [|discriminate Hstep].
  destruct (resume today k r) as [h|] eqn:Hk; [|discriminate Hstep].
  injection Hstep as <-.
  destruct k, r as [[d|d|d|]|]; cbn in Hk; try discriminate Hk;
    injection Hk as <-.
  all: try (destruct d as [|user d]); try (destruct rest as [|user' rest]).
  all: try (cbn in Hnone; unfold skip in Hnone; congruence).
  all: right; right; eauto.
Qed.

(** X22. An error comes on display, or changes, only in the turn in which a
    call is rejected, and never for the [GET /users] of the member
    drop-down, whose failure is only logged: no click, keystroke or
    fulfilled call sets an error. *)
Theorem error_set_only_by_rejection today s e s' m :
  step today s e = Some s' ->
  error (view s') = Some m ->
  error (view s') <> error (view s) ->
  exists i req k,
    e = settle i Rejected
    /\ inflight s !! i = Some (req, k)
    /\ k <> fetchUsersForAssignment_await.
Proof.
  intros Hstep Hsome Hne. destruct e; cbn [step] in Hstep.
  1-9: destruct (enabled _ _); [|discriminate Hstep];
       injection Hstep as <-; cbn [handle] in Hsome, Hne.
  4: unfold handlePlanFormSubmit in Hsome; destruct (editingPlan (view s)).
  8: destruct confirmed.
  1-11: first [ exfalso; apply Hne; reflexivity | discriminate Hsome ].
  destruct (inflight s !! i) as [[req k]|] eqn:Hi; [|discriminate Hstep].
  destruct (resume today k r) as [h|] eqn:Hk; [|discriminate Hstep].
  injection Hstep as <-.
  destruct k, r as [[d|d|d|]|]; cbn in Hk; try discriminate Hk;
    injection Hk as <-.
  all: try (destruct d as [|user d]); try (destruct rest as [|user' rest]).
  all: first [ exfalso; apply Hne; reflexivity
             | discriminate Hsome
             | exists i, req; eexists; split; [reflexivity|]; split;
                 [exact Hi | discriminate] ].
Qed.

(** Both forms are rendered. *)
Definition bothFormsShown (v : View) : bool :=
  showPlanForm v && showAssignForm v.

(** X9. Clicking Edit on a plan row is the only turn that can bring the two
    forms on display together: any other turn that starts with at most one
    form shown ends with at most one shown, and a click on either toggle
    button ends with at most one shown whatever was shown before. *)
Theorem forms_exclusive_unless_edit today s e s' :
  step today s e = Some s' ->
  (forall plan, e <> click_editPlan plan) ->
  bothFormsShown (view s) = false
    \/ e = click_togglePlanForm \/ e = click_toggleAssignForm ->
  bothFormsShown (view s') = false.
Proof.
  unfold bothFormsShown. intros Hstep Hedit Hbefore. destruct e;
    cbn [step] in Hstep.
  1-9: destruct (enabled _ _); [|discriminate Hstep];
       injection Hstep as <-; cbn [handle].
  - cbn. apply andb_false_r.
  - reflexivity.
  - destruct Hbefore as [Hb|[[=]|[=]]]. exact Hb.
  - destruct Hbefore as [Hb|[[=]|[=]]].
    unfold handlePlanFormSubmit. destruct (editingPlan (view s)); exact Hb.
  - reflexivity.
  - destruct (Hedit plan eq_refl).
  - destruct Hbefore as [Hb|[[=]|[=]]]. destruct confirmed; exact Hb.
  - destruct Hbefore as [Hb|[[=]|[=]]]. exact Hb.
  - destruct Hbefore as [Hb|[[=]|[=]]]. exact Hb.
  - destruct Hbefore as [Hb|[[=]|[=]]].
    destruct (inflight s !! i) as [[req k]|] eqn:Hi; [|discriminate Hstep].
    destruct (resume today k r) as [h|] eqn:Hk; [|discriminate Hstep].
    injection Hstep as <-.
    destruct k, r as [[d|d|d|]|]; cbn in Hk; try discriminate Hk;
      injection Hk as <-.
    all: try (destruct d as [|user d]); try (destruct rest as [|user' rest]).
    all: first [exact Hb | reflexivity | cbn; apply andb_false_r].
Qed.

(** X10. A confirmed delete that the server rejects sends the one
    [DELETE /plans/{id}] of the row clicked and nothing else: the plans and
    the assignments on display are left as they are, nothing is fetched
    again, and the error is shown. *)
Theorem deletePlan_rejected_changes_nothing today (s : State) plan :
  enabled (view s) (click_deletePlan plan true) = true ->
  let n := length (inflight s) in
  exists s',
    run s [(today, click_deletePlan plan true); (today, settle n Rejected)]
    = Some s'
    /\ newlyIssued s s' = [DELETE_plans (planId plan)]
    /\ inflight s' = inflight s
    /\ plans (view s') = plans (view s)
    /\ planAssignments (view s') = planAssignments (view s)
    /\ error (view s') = Some (js "Failed to delete plan.")
    /\ loading (view s') = false.
Proof.
  intros He n.
  assert (step today s (click_deletePlan plan true)
          = Some (handleDeletePlanClick (planId plan) true s)) as Hclick
    by (cbn [step]; rewrite He; reflexivity).
  eexists. split; [|split].
  - cbn [run]. rewrite Hclick.
    erewrite (plans_step_settle_last today _ (inflight s)); [|reflexivity..].
    reflexivity.
  - apply plans_newlyIssued_app. reflexivity.
  - repeat split.
Qed.

End Page.

(** *** The page on concrete inputs *)

Definition march1 : jstring := js "2025-03-01".

Definition member (id : string) : User :=
  {| userId := js id; name := js id |}.

Definition assignment (id : Z) (member plan : string) : PlanAssignmentDisplay :=
  {| assignmentId := Some id; userName := js member;
     assignment_planName := js plan;
     startDate := march1; endDate := js "2025-04-01";
     assignment_userId := None; assignment_planId := None |}.

(** Three members with one, two and no assignment: the list displayed is
    the three replies one after the other. *)
Example fetchAllPlanAssignments_three_members :
  let a := assignment 1 "m1" "Gold" in
  let b := assignment 2 "m2" "Gold" in
  let c := assignment 3 "m2" "Yoga" in
  planAssignments ∘ view
    <$> run (mount march1)
          [ (march1, settle 2 (Fulfilled (users_data
                                 [member "m1"; member "m2"; member "m3"])));
            (march1, settle 2 (Fulfilled (assignments_data [a])));
            (march1, settle 2 (Fulfilled (assignments_data [b; c])));
            (march1, settle 2 (Fulfilled (assignments_data []))) ]
  = Some [a; b; c].
Proof. reflexivity. Qed.

(** The second member's call is rejected: nothing is displayed of the first
    reply, and the third member is not fetched. *)
Example fetchAllPlanAssignments_second_member_fails :
  let a := assignment 1 "m1" "Gold" in
  (fun s => (planAssignments (view s), error (view s), length (issued s)))
    <$> run (mount march1)
          [ (march1, settle 2 (Fulfilled (users_data
                                 [member "m1"; member "m2"; member "m3"])));
            (march1, settle 2 (Fulfilled (assignments_data [a])));
            (march1, settle 2 Rejected) ]
  = Some ([], Some (js "Failed to load plan assignments."), 5).
Proof. reflexivity. Qed.

Definition gold : MembershipPlan :=
  {| planId := Some 7%Z; planName := js "Gold"; price := Some 49%Z;
     durationMonths := Some 12%Z; featuresList := js "Pool, Sauna" |}.

(** The page with the plan list loaded and a confirmed delete in flight. *)
Definition deleting : State :=
  default (mount march1)
    (run (mount march1)
       [ (march1, settle 0 (Fulfilled (plans_data [gold])));
         (march1, settle 0 (Fulfilled (users_data [])));
         (march1, settle 0 (Fulfilled (users_data [])));
         (march1, click_deletePlan gold true) ]).

(** The page with a filled-in plan form submitted. *)
Definition saving : State :=
  default (mount march1)
    (run (mount march1)
       [ (march1, settle 0 (Fulfilled (plans_data [])));
         (march1, click_togglePlanForm);
         (march1, change_planInput f_planName (js "Gold"));
         (march1, change_planInput f_price (js "49"));
         (march1, change_planInput f_durationMonths (js "12"));
         (march1, submit_planForm) ]).

(** The button is disabled while the form is being saved and enabled again
    once the call is rejected. *)
Lemma planForm_settle_enables_witness :
  submitDisabled (view saving) = true
  /\ exists s',
       step march1 saving (settle 2 Rejected) = Some s'
       /\ submitDisabled (view s') = false.
Proof.
  split; [reflexivity|].
  apply (planForm_settle_enables march1 saving 2
           (POST_plans (planPayload (planFormData (view saving))))).
  reflexivity.
Defined.

(** Once the plan is deleted both lists are fetched again. *)
Lemma deletePlan_refreshes_plans_and_assignments_witness :
  exists s',
    step march1 deleting (settle 0 (Fulfilled other_data)) = Some s'
    /\ newlyIssued deleting s' = [GET_plans; GET_users].
Proof.
  destruct (deletePlan_refreshes_plans_and_assignments
              march1 deleting 0 (DELETE_plans (planId gold)) other_data)
    as [(s' & Hstep & Hissued & _) _].
  - reflexivity.
  - exists s'. auto.
Defined.

(** The page once the three calls of the mount are fulfilled: one plan, no
    member. *)
Definition loaded : State :=
  default (mount march1)
    (run (mount march1)
       [ (march1, settle 0 (Fulfilled (plans_data [gold])));
         (march1, settle 0 (Fulfilled (users_data [])));
         (march1, settle 0 (Fulfilled (users_data []))) ]).

(** The loaded page with the plan form opened and filled in. *)
Definition planFormReady : State :=
  default loaded
    (run loaded
       [ (march1, click_togglePlanForm);
         (march1, change_planInput f_planName (js "Silver"));
         (march1, change_planInput f_price (js "29"));
         (march1, change_planInput f_durationMonths (js "6")) ]).

Definition silver : PlanPayload :=
  {| payload_planName := js "Silver"; payload_price := Some 29%Z;
     payload_durationMonths := Some 6%Z; payload_featuresList := [] |}.

(** Saving a new plan: fulfilled, the form closes and both lists are
    requested again; rejected, the form stays open with the name typed. *)
Lemma handlePlanFormSubmit_contract_witness :
  (exists s',
     run planFormReady
         [(march1, submit_planForm); (march1, settle 0 (Fulfilled other_data))]
     = Some s'
     /\ newlyIssued planFormReady s' = [POST_plans silver; GET_plans; GET_users]
     /\ showPlanForm (view s') = false)
  /\ (exists s',
        run planFormReady [(march1, submit_planForm); (march1, settle 0 Rejected)]
        = Some s'
        /\ showPlanForm (view s') = true
        /\ form_planName (planFormData (view s')) = js "Silver").
Proof.
  destruct (handlePlanFormSubmit_contract march1 march1 planFormReady)
    as [Hok Hfailed].
  - reflexivity.
  - split.
    + destruct (Hok other_data) as (s' & Hrun & Hissued & _ & Hshow & _).
      exists s'. auto.
    + destruct Hfailed as (s' & Hrun & _ & _ & Hshow & _ & Hform & _).
      exists s'. rewrite Hform. auto.
Defined.

(** Edit on the Gold row, then Save: the plan with id 7 is updated. *)
Lemma editPlan_then_save_updates_that_plan_witness :
  exists s',
    run loaded [(march1, click_editPlan gold); (march1, submit_planForm)]
    = Some s'
    /\ newlyIssued loaded s'
       = [ PUT_plans (Some 7%Z)
             {| payload_planName := js "Gold"; payload_price := Some 49%Z;
                payload_durationMonths := Some 12%Z;
                payload_featuresList := js "Pool, Sauna" |} ].
Proof.
  destruct (editPlan_then_save_updates_that_plan march1 loaded gold)
    as (s' & Hrun & Hissued & _).
  - reflexivity.
  - reflexivity.
  - reflexivity.
  - exists s'. split; [exact Hrun | exact Hissued].
Defined.

(** The loaded page with the assign form opened and filled in. *)
Definition assignFormReady : State :=
  default loaded
    (run loaded
       [ (march1, click_toggleAssignForm);
         (march1, change_assignInput f_userId (js "e0a0ca55-986e"));
         (march1, change_assignInput f_planId (js "7")) ]).

(** Assigning plan 7 from today: fulfilled, the form closes and both member
    fetches go out; rejected, the form stays open. *)
Lemma handleAssignFormSubmit_contract_witness :
  (exists s',
     run assignFormReady
         [(march1, submit_assignForm); (march1, settle 0 (Fulfilled other_data))]
     = Some s'
     /\ newlyIssued assignFormReady s'
        = [ POST_plans_assign
              {| payload_userId := js "e0a0ca55-986e";
                 payload_planId := Some 7%Z; payload_startDate := march1 |};
            GET_users; GET_users ]
     /\ showAssignForm (view s') = false)
  /\ (exists s',
        run assignFormReady
            [(march1, submit_assignForm); (march1, settle 0 Rejected)]
        = Some s'
        /\ showAssignForm (view s') = true
        /\ error (view s') = Some assignPlanFailed).
Proof.
  destruct (handleAssignFormSubmit_contract march1 march1 assignFormReady)
    as (_ & _ & _ & Hok & Hfailed).
  - reflexivity.
  - split.
    + destruct (Hok other_data) as (s' & Hrun & Hissued & _ & Hshow & _).
      exists s'. auto.
    + destruct Hfailed as (s' & Hrun & _ & _ & Hshow & _ & Herror).
      exists s'. auto.
Defined.

(** The plan list of the mount arrives: that turn writes the plan list. *)
Lemma lists_written_only_by_their_fetch_witness :
  exists i req d,
    settle 0 (Fulfilled (plans_data [gold])) = settle i (Fulfilled (plans_data d))
    /\ inflight (mount march1) !! i = Some (req, fetchPlans_await)
    /\ d = [gold].
Proof.
  destruct (lists_written_only_by_their_fetch march1 (mount march1)
              (settle 0 (Fulfilled (plans_data [gold])))
              (default (mount march1)
                 (step march1 (mount march1)
                    (settle 0 (Fulfilled (plans_data [gold]))))))
    as (Hplans & _).
  - reflexivity.
  - assert (plans (view (default (mount march1)
                (step march1 (mount march1)
                   (settle 0 (Fulfilled (plans_data [gold]))))))
            <> plans (view (mount march1))) as Hchanged by discriminate.
    destruct (Hplans Hchanged) as (i & req & d & He & Hi & Hd).
    exists i, req, d. split; [exact He|]. split; [exact Hi|].
    rewrite <- Hd. reflexivity.
Defined.

(** The page after the aggregation of the mount has failed. *)
Definition aggregationFailed : State :=
  default (mount march1)
    (run (mount march1) [(march1, settle 2 Rejected)]).

(** The error of the failed aggregation goes when the plan list arrives. *)
Lemma error_cleared_only_by_submit_or_plans_witness :
  error (view aggregationFailed) = Some loadAssignmentsError
  /\ (settle 0 (Fulfilled (plans_data [gold])) = submit_planForm
      \/ settle 0 (Fulfilled (plans_data [gold])) = submit_assignForm
      \/ exists i req d,
           settle 0 (Fulfilled (plans_data [gold]))
           = settle i (Fulfilled (plans_data d))
           /\ inflight aggregationFailed !! i = Some (req, fetchPlans_await)).
Proof.
  split; [reflexivity|].
  apply (error_cleared_only_by_submit_or_plans march1 aggregationFailed
           (settle 0 (Fulfilled (plans_data [gold])))
           (default aggregationFailed
              (step march1 aggregationFailed
                 (settle 0 (Fulfilled (plans_data [gold])))))
           loadAssignmentsError); reflexivity.
Defined.

(** The aggregation of the mount is rejected: that turn shows its error. *)
Lemma error_set_only_by_rejection_witness :
  exists i req k,
    settle 2 Rejected = settle i Rejected
    /\ inflight (mount march1) !! i = Some (req, k)
    /\ k <> fetchUsersForAssignment_await.
Proof.
  apply (error_set_only_by_rejection march1 (mount march1) (settle 2 Rejected)
           aggregationFailed loadAssignmentsError).
  - reflexivity.
  - reflexivity.
  - discriminate.
Defined.

(** With the assign form open, the other toggle button swaps the forms. *)
Lemma forms_exclusive_unless_edit_witness :
  bothFormsShown
    (view (default loaded
             (run loaded [ (march1, click_toggleAssignForm);
                           (march1, click_togglePlanForm) ])))
  = false.
Proof.
  apply (forms_exclusive_unless_edit march1
           (default loaded (run loaded [(march1, click_toggleAssignForm)]))
           click_togglePlanForm).
  - reflexivity.
  - discriminate.
  - left. reflexivity.
Defined.

(** The server refuses to delete the Gold plan: the row stays. *)
Lemma deletePlan_rejected_changes_nothing_witness :
  exists s',
    run loaded [(march1, click_deletePlan gold true); (march1, settle 0 Rejected)]
    = Some s'
    /\ newlyIssued loaded s' = [DELETE_plans (Some 7%Z)]
    /\ plans (view s') = [gold].
Proof.
  destruct (deletePlan_rejected_changes_nothing march1 loaded gold)
    as (s' & Hrun & Hissued & _ & Hplans & _).
  - reflexivity.
  - exists s'. rewrite Hplans. auto.
Defined.

End MembershipPlansPage.

(** ** [src/pages/AttendancePage.tsx] *)

Module AttendancePage.
Section Page.
Context `{JSNumber} `{DateFns}.

(** *** Data of the remote interface *)

Record AttendanceRecordDisplay := {
  attendanceId : number;
  userId : jstring;
  userName : jstring;
  checkInTime : jstring
}.

Record User := { user_userId : jstring; name : jstring }.

(** [response.data] of [POST /attendance/checkin]. *)
Record CheckInResponse := {
  checkin_userId : jstring;
  checkin_checkInTime : jstring
}.

(** The error a rejected call is caught with: [err.response] is absent on a
    network failure; [err.response.data] and its [message] may be absent. *)
Record ErrorData := { message : option jstring }.

Record ErrorResponse := {
  status : number;
  statusText : jstring;
  data : option ErrorData
}.

Inductive Request :=
| GET_users
| GET_attendance_all
| POST_attendance_checkin (userId : jstring).

Inductive Data :=
| users_data (d : list User)
| attendance_data (d : list AttendanceRecordDisplay)
| checkin_data (d : CheckInResponse).

Inductive Reply :=
| Fulfilled (d : Data)
| Rejected (response : option ErrorResponse).

(** *** The [useState] cells of the component *)

Record View := {
  userIdInput : jstring;
  checkInMessage : option jstring;
  checkInError : option jstring;
  loadingCheckIn : bool;
  attendanceRecords : list AttendanceRecordDisplay;
  usersMap : gmap (list N) (list N);
  loadingLogs : bool;
  errorLogs : option jstring
}.

Definition initialView : View :=
  {| userIdInput := []; checkInMessage := None; checkInError := None;
     loadingCheckIn := false; attendanceRecords := []; usersMap := ∅;
     loadingLogs := true; errorLogs := None |}.

(** The resumption points.  [fetchUsersMap] is only awaited by
    [loadInitialData], which goes on with [fetchAttendanceLogs];
    [handleCheckIn] reads, when it resumes, the [usersMap] of the render
    it was called from. *)
Inductive Cont :=
| loadInitialData_await_fetchUsersMap
| fetchAttendanceLogs_await
| handleCheckIn_await (usersMap : gmap (list N) (list N)).

Record State := {
  view : View;
  inflight : list (Request * Cont);
  issued : list Request
}.

Definition Handler := State -> State.

Definition on_view (f : View -> View) : Handler := fun s =>
  {| view := f (view s); inflight := inflight s; issued := issued s |}.

Definition await (req : Request) (k : Cont) : Handler := fun s =>
  {| view := view s;
     inflight := inflight s ++ [(req, k)];
     issued := issued s ++ [req] |}.

Definition settled (i : nat) : Handler := fun s =>
  {| view := view s; inflight := delete i (inflight s); issued := issued s |}.

(** *** State setters *)

Definition setUserIdInput (x : jstring) : Handler := on_view (fun v =>
  {| userIdInput := x; checkInMessage := checkInMessage v;
     checkInError := checkInError v; loadingCheckIn := loadingCheckIn v;
     attendanceRecords := attendanceRecords v; usersMap := usersMap v;
     loadingLogs := loadingLogs v; errorLogs := errorLogs v |}).

Definition setCheckInMessage (x : option jstring) : Handler := on_view (fun v =>
  {| userIdInput := userIdInput v; checkInMessage := x;
     checkInError := checkInError v; loadingCheckIn := loadingCheckIn v;
     attendanceRecords := attendanceRecords v; usersMap := usersMap v;
     loadingLogs := loadingLogs v; errorLogs := errorLogs v |}).

Definition setCheckInError (x : option jstring) : Handler := on_view (fun v =>
  {| userIdInput := userIdInput v; checkInMessage := checkInMessage v;
     checkInError := x; loadingCheckIn := loadingCheckIn v;
     attendanceRecords := attendanceRecords v; usersMap := usersMap v;
     loadingLogs := loadingLogs v; errorLogs := errorLogs v |}).

Definition setLoadingCheckIn (x : bool) : Handler := on_view (fun v =>
  {| userIdInput := userIdInput v; checkInMessage := checkInMessage v;
     checkInError := checkInError v; loadingCheckIn := x;
     attendanceRecords := attendanceRecords v; usersMap := usersMap v;
     loadingLogs := loadingLogs v; errorLogs := errorLogs v |}).

Definition setAttendanceRecords (x : list AttendanceRecordDisplay) : Handler :=
  on_view (fun v =>
  {| userIdInput := userIdInput v; checkInMessage := checkInMessage v;
     checkInError := checkInError v; loadingCheckIn := loadingCheckIn v;
     attendanceRecords := x; usersMap := usersMap v;
     loadingLogs := loadingLogs v; errorLogs := errorLogs v |}).

Definition setUsersMap (x : gmap (list N) (list N)) : Handler := on_view (fun v =>
  {| userIdInput := userIdInput v; checkInMessage := checkInMessage v;
     checkInError := checkInError v; loadingCheckIn := loadingCheckIn v;
     attendanceRecords := attendanceRecords v; usersMap := x;
     loadingLogs := loadingLogs v; errorLogs := errorLogs v |}).

Definition setLoadingLogs (x : bool) : Handler := on_view (fun v =>
  {| userIdInput := userIdInput v; checkInMessage := checkInMessage v;
     checkInError := checkInError v; loadingCheckIn := loadingCheckIn v;
     attendanceRecords := attendanceRecords v; usersMap := usersMap v;
     loadingLogs := x; errorLogs := errorLogs v |}).

Definition setErrorLogs (x : option jstring) : Handler := on_view (fun v =>
  {| userIdInput := userIdInput v; checkInMessage := checkInMessage v;
     checkInError := checkInError v; loadingCheckIn := loadingCheckIn v;
     attendanceRecords := attendanceRecords v; usersMap := usersMap v;
     loadingLogs := loadingLogs v; errorLogs := x |}).

(** *** The fetch functions and handlers, up to their first [await] *)

Definition fetchUsersMap : Handler :=
  await GET_users loadInitialData_await_fetchUsersMap.

(** [loadInitialData], up to its first [await], which is the one inside
    [fetchUsersMap]. *)
Definition loadInitialData : Handler := fetchUsersMap.

Definition fetchAttendanceLogs : Handler :=
  setLoadingLogs true ;; await GET_attendance_all fetchAttendanceLogs_await.

Definition handleCheckIn (userId : jstring) : Handler := fun s =>
  (setCheckInMessage None ;;
   setCheckInError None ;;
   setLoadingCheckIn true ;;
   await (POST_attendance_checkin userId)
         (handleCheckIn_await (usersMap (view s)))) s.

Definition handleManualCheckInSubmit : Handler := fun s =>
  if truthy (trim (userIdInput (view s)))
  then handleCheckIn (trim (userIdInput (view s))) s
  else s.

(** [response.data.forEach(user => map.set(user.userId, user.name))] on a
    new [Map]. *)
Definition buildUsersMap (d : list User) : gmap (list N) (list N) :=
  foldl (fun map user => <[user_userId user := name user]> map) ∅ d.

(** [usersMap.get(checkedInUserId) || checkedInUserId.substring(0, 8) + '...'] *)
Definition checkedInUserName (usersMap : gmap (list N) (list N))
    (checkedInUserId : jstring) : jstring :=
  or_else (usersMap !! checkedInUserId)
          (substring 0 8 checkedInUserId ++ js "...").

Definition checkInFailed : jstring :=
  js "Failed to check in. Please ensure User ID is valid.".

Definition userNamesFailed : jstring :=
  js "Failed to load user names for attendance records.".

(** The [catch] block of [handleCheckIn]:
    [err.response && err.response.data && err.response.data.message]. *)
Definition checkInErrorText (response : option ErrorResponse) : jstring :=
  match response with
  | Some r =>
      match data r with
      | Some d =>
          match message d with
          | Some m => if truthy m then m else checkInFailed
          | None => checkInFailed
          end
      | None => checkInFailed
      end
  | None => checkInFailed
  end.

(** *** Resumption after an [await] *)
Definition resume (k : Cont) (r : Reply) : option Handler :=
  match k, r with
  | loadInitialData_await_fetchUsersMap, Fulfilled (users_data d) =>
      Some (setUsersMap (buildUsersMap d) ;;
            setErrorLogs None ;;
            fetchAttendanceLogs)
  | loadInitialData_await_fetchUsersMap, Rejected _ =>
      Some (setErrorLogs (Some userNamesFailed) ;;
            fetchAttendanceLogs)
  | fetchAttendanceLogs_await, Fulfilled (attendance_data d) =>
      Some (setAttendanceRecords d ;; setErrorLogs None ;; setLoadingLogs false)
  | fetchAttendanceLogs_await, Rejected (Some r) =>
      Some (setErrorLogs
              (Some (js "Failed to load attendance logs: "
                       ++ numberToString (status r) ++ js " - " ++ statusText r)) ;;
            setLoadingLogs false)
  | fetchAttendanceLogs_await, Rejected None =>
      Some (setErrorLogs
              (Some (js "Failed to load attendance logs. Network error or backend down.")) ;;
            setLoadingLogs false)
  | handleCheckIn_await usersMap, Fulfilled (checkin_data d) =>
      let checkedInUserId := checkin_userId d in
      let userName := checkedInUserName usersMap checkedInUserId in
      match format (checkin_checkInTime d) (js "HH:mm:ss") with
      | Some time =>
          Some (setCheckInMessage
                  (Some (js "User " ++ userName
                           ++ js " checked in successfully at " ++ time ++ js "!")) ;;
                setUserIdInput [] ;;
                fetchAttendanceLogs ;;
                setLoadingCheckIn false)
      | None =>
          (* [format] throws: the [catch] block runs, with no [err.response] *)
          Some (setCheckInError (Some (checkInErrorText None)) ;;
                setLoadingCheckIn false)
      end
  | handleCheckIn_await _, Rejected response =>
      Some (setCheckInError (Some (checkInErrorText response)) ;;
            setLoadingCheckIn false)
  | _, Fulfilled _ => None
  end.

(** *** What is rendered *)

(** [disabled={loadingCheckIn}] on the Check In button. *)
Definition checkInDisabled (v : View) : bool := loadingCheckIn v.

(** [{errorLogs && <p>{errorLogs}</p>}] *)
Definition errorBanner (v : View) : option jstring :=
  match errorLogs v with
  | Some e => if truthy e then Some e else None
  | None => None
  end.

Inductive LogsPanel :=
| loadingText
| noRecordsText
| logsTable (rows : list AttendanceRecordDisplay).

Definition logsPanel (v : View) : LogsPanel :=
  if loadingLogs v && bool_decide (length (attendanceRecords v) = 0)
  then loadingText
  else if bool_decide (length (attendanceRecords v) = 0) then noRecordsText
  else logsTable (attendanceRecords v).

(** [record.userName || 'Unknown User'] *)
Definition memberNameCell (record : AttendanceRecordDisplay) : jstring :=
  or_else (Some (userName record)) (js "Unknown User").

(** *** Events *)

Inductive Event :=
| change_userIdInput (value : jstring)
| submit_manualCheckIn
| settle (i : nat) (r : Reply).

Definition enabled (v : View) (e : Event) : bool :=
  match e with
  | change_userIdInput _ => true
  | submit_manualCheckIn =>
      (* the button is enabled and the [required] input is not empty *)
      negb (checkInDisabled v) && truthy (userIdInput v)
  | settle _ _ => true
  end.

Definition handle (e : Event) : Handler :=
  match e with
  | change_userIdInput value => setUserIdInput value
  | submit_manualCheckIn => handleManualCheckInSubmit
  | settle _ _ => skip
  end.

Definition step (s : State) (e : Event) : option State :=
  match e with
  | settle i r =>
      match inflight s !! i with
      | Some (_, k) =>
          match resume k r with
          | Some h => Some (h (settled i s))
          | None => None
          end
      | None => None
      end
  | _ => if enabled (view s) e then Some (handle e s) else None
  end.

Fixpoint run (s : State) (trace : list Event) : option State :=
  match trace with
  | [] => Some s
  | e :: trace' =>
      match step s e with
      | Some s' => run s' trace'
      | None => None
      end
  end.

(** The first render followed by the mount effect. *)
Definition mount : State :=
  loadInitialData {| view := initialView; inflight := []; issued := [] |}.

Inductive reachable : State -> Prop :=
| reachable_mount : reachable mount
| reachable_step s e s' : reachable s -> step s e = Some s' -> reachable s'.

Definition is_checkIn (c : Request * Cont) : bool :=
  match c.2 with handleCheckIn_await _ => true | _ => false end.

Definition checkInsInFlight (s : State) : nat :=
  length (List.filter is_checkIn (inflight s)).

Definition newlyIssued (s s' : State) : list Request :=
  drop (length (issued s)) (issued s').

(** *** Properties of the page *)

Lemma attendance_newlyIssued_app s s' new :
  issued s' = issued s ++ new -> newlyIssued s s' = new.
Proof. intros E. unfold newlyIssued. rewrite E. apply drop_app_length. Qed.

Lemma attendance_step_settle_last s l req k r h :
  inflight s = l ++ [(req, k)] ->
  resume k r = Some h ->
  step s (settle (length l) r)
  = Some (h {| view := view s; inflight := l; issued := issued s |}).
Proof.
  intros Hl Hk. unfold step, settled.
  rewrite Hl, list_lookup_middle by reflexivity.
  rewrite Hk, delete_middle, app_nil_r. reflexivity.
Qed.

Lemma substring_0 n (s : jstring) : substring 0 n s = take n s.
Proof.
  unfold substring. rewrite Nat.min_0_l, Nat.max_0_l, Nat.sub_0_r, drop_0.
  destruct (Nat.min_spec n (length s)) as [[Hlt ->]|[Hle ->]]; [reflexivity|].
  rewrite !take_ge by lia. reflexivity.
Qed.

(** Every member of the reply has an entry in the table built from it. *)
Lemma buildUsersMap_complete (members : list User) member :
  member ∈ members -> is_Some (buildUsersMap members !! user_userId member).
Proof.
  unfold buildUsersMap.
  assert (forall table : gmap (list N) (list N),
            member ∈ members \/ is_Some (table !! user_userId member) ->
            is_Some (foldl (fun map user => <[user_userId user := name user]> map)
                           table members !! user_userId member)) as Hfold.
  { induction members as [|user members IH]; intros table [Hin|Hsome]; cbn.
    - apply elem_of_nil in Hin. contradiction.
    - exact Hsome.
    - apply IH. apply elem_of_cons in Hin as [->|Hin]; [right|left; exact Hin].
      rewrite lookup_insert_eq. eauto.
    - apply IH. right. rewrite lookup_insert_is_Some. 
      destruct (decide (user_userId user = user_userId member)); auto. }
  intros Hin. apply Hfold. left. exact Hin.
Qed.

(** A row whose [userName] is empty shows the fallback. *)
Lemma memberNameCell_fallback record :
  memberNameCell record
  = if truthy (userName record) then userName record else js "Unknown User".
Proof. reflexivity. Qed.

(** C3 on the code: at startup the member list is requested first and the
    attendance records only once that call has settled; when the member
    call is rejected the load-error banner is raised and the records are
    requested all the same; but when the records then arrive, the rows are
    rendered and the banner is cleared: no error stays on display. *)
Theorem startup_names_failed_banner_cleared
    response (record : AttendanceRecordDisplay)
    (more : list AttendanceRecordDisplay) :
  issued mount = [GET_users]
  /\ exists s1 s2,
       step mount (settle 0 (Rejected response)) = Some s1
       /\ errorBanner (view s1) = Some userNamesFailed
       /\ newlyIssued mount s1 = [GET_attendance_all]
       /\ step s1 (settle 0 (Fulfilled (attendance_data (record :: more))))
          = Some s2
       /\ logsPanel (view s2) = logsTable (record :: more)
       /\ usersMap (view s2) = ∅
       /\ errorBanner (view s2) = None.
Proof.
  split; [reflexivity|].
  eexists _, _. repeat split; reflexivity.
Qed.

(** X2. At startup only the member list is requested; the attendance records
    are requested in the turn in which the member call settles, after the
    name-resolution table has been written from the whole reply. *)
Theorem startup_names_before_logs (members : list User) :
  issued mount = [GET_users]
  /\ inflight mount = [(GET_users, loadInitialData_await_fetchUsersMap)]
  /\ exists s1,
       step mount (settle 0 (Fulfilled (users_data members))) = Some s1
       /\ usersMap (view s1) = buildUsersMap members
       /\ (forall member, member ∈ members ->
             is_Some (usersMap (view s1) !! user_userId member))
       /\ newlyIssued mount s1 = [GET_attendance_all].
Proof.
  split; [reflexivity|]. split; [reflexivity|].
  eexists. split; [reflexivity|]. split; [reflexivity|]. split; [|reflexivity].
  cbn. apply buildUsersMap_complete.
Qed.

(** A call in flight stays in flight, with its continuation, through every
    turn but the one that settles it. *)
Lemma stays_in_flight s e s' i req k :
  inflight s !! i = Some (req, k) ->
  step s e = Some s' ->
  (forall r, e <> settle i r) ->
  exists i', inflight s' !! i' = Some (req, k).
Proof.
  intros Hi Hstep Hother. destruct e as [value| |j r]; cbn [step] in Hstep.
  - injection Hstep as <-. exists i. exact Hi.
  - destruct (enabled _ _); [|discriminate Hstep]. injection Hstep as <-.
    cbn [handle]. unfold handleManualCheckInSubmit. destruct (truthy _).
    + exists i. cbn. apply lookup_app_l_Some. exact Hi.
    + exists i. exact Hi.
  - destruct (inflight s !! j) as [[req' k']|] eqn:Hj; [|discriminate Hstep].
    destruct (resume k' r) as [h|] eqn:Hk; [|discriminate Hstep].
    injection Hstep as <-.
    assert (i <> j) as Hij by (intros ->; exact (Hother r eq_refl)).
    assert (exists i', delete j (inflight s) !! i' = Some (req, k)) as [i' Hi'].
    { destruct (decide (i < j)) as [Hlt|Hge].
      - exists i. rewrite list_lookup_delete_lt by exact Hlt. exact Hi.
      - exists (pred i). rewrite list_lookup_delete_ge by lia.
        replace (S (pred i)) with i by lia. exact Hi. }
    exists i'.
    destruct k', r as [[d|d|d]|[response|]]; cbn in Hk; try discriminate Hk.
    all: try (destruct (format _ _)).
    all: injection Hk as <-; cbn.
    all: first [exact Hi' | apply lookup_app_l_Some; exact Hi'].
Qed.

(** C6, amended. A fulfilled check-in whose time can be formatted, and
    during which the cached name table has not changed (the table its
    handler holds is the one on the page when the reply arrives), shows
    [User <name> checked in successfully at <time>!], where the name is
    looked up in that table under the [userId] of the response: the mapped
    name when there is one and it is not empty, and otherwise (no entry, or
    an empty name) the first 8 code units of that [userId] followed by
    [...]; the name shown is never empty, and the error cell is not
    touched.  A submission hands its handler the table on the page at that
    moment, with both feedback cells cleared, and the check-in stays in
    flight with that table through every turn but its own reply. *)
Theorem checkIn_success_names_user s i req (response : CheckInResponse) time :
  inflight s !! i = Some (req, handleCheckIn_await (usersMap (view s))) ->
  format (checkin_checkInTime response) (js "HH:mm:ss") = Some time ->
  let table := usersMap (view s) in
  let id := checkin_userId response in
  (exists s' shown,
     step s (settle i (Fulfilled (checkin_data response))) = Some s'
     /\ checkInMessage (view s')
        = Some (js "User " ++ shown ++ js " checked in successfully at "
                  ++ time ++ js "!")
     /\ checkInError (view s') = checkInError (view s)
     /\ (table !! id = None -> shown = take 8 id ++ js "...")
     /\ (forall name, table !! id = Some name -> name <> [] -> shown = name)
     /\ (table !! id = Some [] -> shown = take 8 id ++ js "...")
     /\ shown <> [])
  /\ (forall s0,
        enabled (view s0) submit_manualCheckIn = true ->
        trim (userIdInput (view s0)) <> [] ->
        exists s1,
          step s0 submit_manualCheckIn = Some s1
          /\ inflight s1
             = inflight s0
                 ++ [ (POST_attendance_checkin (trim (userIdInput (view s0))),
                       handleCheckIn_await (usersMap (view s1))) ]
          /\ usersMap (view s1) = usersMap (view s0)
          /\ checkInMessage (view s1) = None
          /\ checkInError (view s1) = None)
  /\ (forall s0 e s1 i0 req0 table0,
        inflight s0 !! i0 = Some (req0, handleCheckIn_await table0) ->
        step s0 e = Some s1 ->
        (forall r, e <> settle i0 r) ->
        exists i1, inflight s1 !! i1 = Some (req0, handleCheckIn_await table0)).
Proof.
  intros Hi Htime table id. split; [|split].
  3: { intros s0 e s1 i0 req0 table0. apply stays_in_flight. }
  - exists ((setCheckInMessage
               (Some (js "User " ++ checkedInUserName table id
                        ++ js " checked in successfully at " ++ time ++ js "!")) ;;
             setUserIdInput [] ;; fetchAttendanceLogs ;; setLoadingCheckIn false)
              (settled i s)),
           (checkedInUserName table id).
    split; [|split; [reflexivity | split; [reflexivity|]]].
    + cbn [step]. rewrite Hi. cbn [resume]. fold id. rewrite Htime. reflexivity.
    + unfold checkedInUserName. rewrite substring_0.
      destruct (table !! id) as [[|c name]|] eqn:Hid; cbn [or_else truthy].
      all: assert (take 8 id ++ js "..." <> []) as Hfallback
        by (intros E; apply app_eq_nil in E as [_ E]; discriminate E).
      * split; [done|]. split; [intros n [= <-] Hn; done|]. split; done.
      * split; [done|]. split; [intros n [= <-] _; reflexivity|]. split; done.
      * split; [done|]. split; [done|]. split; done.
  - intros s0 He Hinput.
    destruct (trim (userIdInput (view s0))) as [|c w] eqn:Hw; [done|].
    exists (handleCheckIn (c :: w) s0). split; [|repeat split].
    cbn [step]. rewrite He. cbn [handle].
    unfold handleManualCheckInSubmit. rewrite Hw. reflexivity.
Qed.

(** The [message] field of the error payload, when the error carries a
    response, the response a body, and the body the field. *)
Definition remoteMessage (response : option ErrorResponse) : option jstring :=
  r ← response; d ← data r; message d.

(** C7, amended. When a check-in is rejected, the error shown is the
    [message] field of the error payload, verbatim, when there is one and
    it is not empty; otherwise (no such field, or an empty one) it is the
    fixed text [Failed to check in. Please ensure User ID is valid.]; the
    submit control is enabled again. *)
Theorem checkIn_failure_message s i req table response :
  inflight s !! i = Some (req, handleCheckIn_await table) ->
  exists s' shown,
    step s (settle i (Rejected response)) = Some s'
    /\ checkInError (view s') = Some shown
    /\ checkInDisabled (view s') = false
    /\ (forall m, remoteMessage response = Some m -> m <> [] -> shown = m)
    /\ (remoteMessage response = None \/ remoteMessage response = Some [] ->
        shown = js "Failed to check in. Please ensure User ID is valid.").
Proof.
  intros Hi. exists
    ((setCheckInError (Some (checkInErrorText response)) ;;
      setLoadingCheckIn false) (settled i s)), (checkInErrorText response).
  split; [|split; [reflexivity | split; [reflexivity|]]].
  - cbn [step]. rewrite Hi. reflexivity.
  - unfold remoteMessage, checkInErrorText.
    destruct response as [[st tx [[[[|c m]|]]|]]|]; cbn;
      (split; [intros m' Hm Hne | intros Hm]);
      first [ congruence | reflexivity | by destruct Hm ].
Qed.

(** C10. Submitting the manual check-in form when the trimmed input is
    empty issues no call and changes nothing; otherwise the check-in is
    issued with exactly the trimmed input, which is the input without the
    white space before and after it. *)
Theorem manualCheckIn_submits_trimmed_id s :
  let input := userIdInput (view s) in
  (trim input = [] -> handleManualCheckInSubmit s = s)
  /\ (trim input <> [] ->
      newlyIssued s (handleManualCheckInSubmit s)
      = [POST_attendance_checkin (trim input)]
      /\ inflight (handleManualCheckInSubmit s)
         = inflight s ++ [ (POST_attendance_checkin (trim input),
                            handleCheckIn_await (usersMap (view s))) ])
  /\ (exists before after,
        input = before ++ trim input ++ after
        /\ allWhiteSpace before /\ allWhiteSpace after)
  /\ (forall c rest, trim input = c :: rest -> isWhiteSpace c = false)
  /\ (forall c init, trim input = init ++ [c] -> isWhiteSpace c = false).
Proof.
  intros input. unfold handleManualCheckInSubmit. fold input.
  split; [|split; [|split; [|split]]].
  - intros ->. reflexivity.
  - intros Hne. destruct (trim input) as [|c w] eqn:Hw; [done|].
    cbn [truthy]. split; [|reflexivity].
    apply attendance_newlyIssued_app. reflexivity.
  - apply trim_decomposition.
  - apply trim_no_leading.
  - apply trim_no_trailing.
Qed.

(** Removing one call in flight removes it from the count of check-ins
    exactly when it is a check-in. *)
Lemma filter_delete_length {A} (p : A -> bool) (l : list A) i c :
  l !! i = Some c ->
  length (List.filter p l)
  = (if p c then 1 else 0) + length (List.filter p (delete i l)).
Proof.
  revert i. induction l as [|a l IH]; intros [|i] Hi; try discriminate Hi.
  - injection Hi as ->. cbn. destruct (p c); reflexivity.
  - cbn in Hi |- *. specialize (IH i Hi).
    destruct (p a), (p c); cbn in *;
      first [exact IH | exact (f_equal S IH)].
Qed.

(** The invariant behind the Check In button: [loadingCheckIn] is raised
    exactly while one check-in is in flight. *)
Definition checkIn_invariant (s : State) : Prop :=
  checkInsInFlight s = if loadingCheckIn (view s) then 1 else 0.

Lemma checkIn_invariant_mount : checkIn_invariant mount.
Proof. reflexivity. Qed.

Lemma checkIn_invariant_step s e s' :
  checkIn_invariant s -> step s e = Some s' -> checkIn_invariant s'.
Proof.
  unfold checkIn_invariant, checkInsInFlight. intros Hinv Hstep.
  destruct e as [value| |i r]; cbn [step] in Hstep.
  - injection Hstep as <-. exact Hinv.
  - destruct (enabled (view s) submit_manualCheckIn) eqn:He; [|discriminate Hstep].
    injection Hstep as <-. cbn in He.
    apply andb_true_iff in He as [He _].
    unfold checkInDisabled in He. apply negb_true_iff in He.
    rewrite He in Hinv. cbn [handle]. unfold handleManualCheckInSubmit.
    destruct (truthy _).
    + cbn. rewrite List.filter_app, length_app, Hinv. reflexivity.
    + rewrite He. exact Hinv.
  - destruct (inflight s !! i) as [[req k]|] eqn:Hi; [|discriminate Hstep].
    destruct (resume k r) as [h|] eqn:Hk; [|discriminate Hstep].
    injection Hstep as <-.
    rewrite (filter_delete_length is_checkIn _ i _ Hi) in Hinv.
    destruct k, r as [[d|d|d]|[response|]]; cbn in Hk; try discriminate Hk.
    all: try (destruct (format _ _)).
    all: injection Hk as <-; cbn in Hinv |- *.
    all: rewrite ?List.filter_app, ?length_app; cbn.
    all: destruct (loadingCheckIn (view s)); lia.
Qed.

Lemma checkIn_invariant_reachable s : reachable s -> checkIn_invariant s.
Proof.
  induction 1 as [|s e s' _ IH Hstep].
  - apply checkIn_invariant_mount.
  - exact (checkIn_invariant_step s e s' IH Hstep).
Qed.

(** X1. On the Attendance page the Check In button is disabled exactly
    while a check-in is in flight, at most one check-in is in flight at a time, and
    the button is enabled again when the check-in settles, fulfilled or
    rejected. *)
Theorem checkIn_control_tracks_submission s :
  reachable s ->
  (checkInDisabled (view s) = true <-> 0 < checkInsInFlight s)
  /\ checkInsInFlight s <= 1
  /\ (forall i req table r s',
        inflight s !! i = Some (req, handleCheckIn_await table) ->
        step s (settle i r) = Some s' ->
        checkInDisabled (view s') = false /\ checkInsInFlight s' = 0).
Proof.
  intros Hs. pose proof (checkIn_invariant_reachable s Hs) as Hinv.
  unfold checkIn_invariant, checkInDisabled in *.
  split; [|split].
  - destruct (loadingCheckIn (view s)); rewrite Hinv; split; (done || lia).
  - destruct (loadingCheckIn (view s)); lia.
  - intros i req table r s' Hi Hstep.
    pose proof (checkIn_invariant_step s _ s' Hinv Hstep) as Hinv'.
    unfold checkIn_invariant in Hinv'.
    assert (loadingCheckIn (view s') = false) as Hl.
    { cbn [step] in Hstep. rewrite Hi in Hstep.
      destruct r as [[d|d|d]|response]; cbn in Hstep; try discriminate Hstep.
      - destruct (format _ _); injection Hstep as <-; reflexivity.
      - injection Hstep as <-; reflexivity. }
    rewrite Hl in Hinv'. auto.
Qed.

(** *** Further properties: the name table *)

(** X11. The table built from a member list maps an id to the name of the
    last member of the list carrying that id, and to nothing when no member
    carries it. *)
Theorem buildUsersMap_last_wins (members : list User) (id : jstring) :
  buildUsersMap members !! id
  = name <$> last (filter (fun user => user_userId user = id) members).
Proof.
  unfold buildUsersMap.
  induction members as [|user members IH] using rev_ind.
  - reflexivity.
  - rewrite foldl_snoc, filter_app, lookup_insert.
    destruct (decide (user_userId user = id)) as [Hid|Hid].
    + rewrite filter_cons_True, filter_nil, last_snoc by exact Hid.
      reflexivity.
    + rewrite filter_cons_False, filter_nil, app_nil_r by exact Hid.
      exact IH.
Qed.

(** *** Further properties: check-in *)

(** X12. A check-in reads the name table of the render it was submitted
    from.  Submitted at startup before the member list has arrived, it
    shows the first 8 code units of the [userId] of the response followed
    by [...], even when the member list arrives, with that member in it,
    before the check-in is fulfilled. *)
Theorem checkIn_before_names_load_shows_id
    (input : jstring) (members : list User) (response : CheckInResponse) time :
  trim input <> [] ->
  format (checkin_checkInTime response) (js "HH:mm:ss") = Some time ->
  exists s',
    run mount [ change_userIdInput input;
                submit_manualCheckIn;
                settle 0 (Fulfilled (users_data members));
                settle 0 (Fulfilled (checkin_data response)) ]
    = Some s'
    /\ usersMap (view s') = buildUsersMap members
    /\ checkInMessage (view s')
       = Some (js "User " ++ (take 8 (checkin_userId response) ++ js "...")
                 ++ js " checked in successfully at " ++ time ++ js "!").
Proof.
  intros Hinput Htime.
  destruct input as [|c input]; [done|].
  destruct (trim (c :: input)) as [|c' w] eqn:Hw; [done|].
  pose (s1 := setUserIdInput (c :: input) mount).
  assert (step s1 submit_manualCheckIn = Some (handleCheckIn (c' :: w) s1))
    as Hsubmit.
  { unfold step, handle, handleManualCheckInSubmit.
    change (enabled (view s1) submit_manualCheckIn) with true.
    change (userIdInput (view s1)) with (c :: input).
    rewrite Hw. reflexivity. }
  eexists. split; [|split].
  - cbn [run]. change (step mount (change_userIdInput (c :: input)))
      with (Some s1).
    cbn match. rewrite Hsubmit. cbn -[js]. rewrite Htime. reflexivity.
  - reflexivity.
  - cbn -[js]. unfold checkedInUserName. rewrite lookup_empty, substring_0.
    reflexivity.
Qed.

(** X13. A fulfilled check-in whose [checkInTime] cannot be formatted is
    reported as a failure: the fixed error text is shown, no success
    message is set, the id typed stays in the input, the attendance list is
    not requested again, and the button is enabled again. *)
Theorem checkIn_unformattable_time_reports_failure
    s i req table (response : CheckInResponse) :
  inflight s !! i = Some (req, handleCheckIn_await table) ->
  format (checkin_checkInTime response) (js "HH:mm:ss") = None ->
  exists s',
    step s (settle i (Fulfilled (checkin_data response))) = Some s'
    /\ checkInError (view s')
       = Some (js "Failed to check in. Please ensure User ID is valid.")
    /\ checkInMessage (view s') = checkInMessage (view s)
    /\ userIdInput (view s') = userIdInput (view s)
    /\ attendanceRecords (view s') = attendanceRecords (view s)
    /\ newlyIssued s s' = []
    /\ checkInDisabled (view s') = false.
Proof.
  intros Hi Htime. eexists. split.
  - cbn [step]. rewrite Hi. cbn [resume]. rewrite Htime. reflexivity.
  - do 4 (split; [reflexivity|]). split; [|reflexivity].
    apply attendance_newlyIssued_app. cbn. symmetry. apply app_nil_r.
Qed.

(** X14. A fulfilled check-in empties the input and requests the attendance
    list again in the same turn, leaving the rows on display as they are;
    when that request is fulfilled the rows are the reply, in its order,
    and no load error is on display. *)
Theorem checkIn_success_refreshes_logs
    s i req table (response : CheckInResponse) time
    (records : list AttendanceRecordDisplay) :
  inflight s !! i = Some (req, handleCheckIn_await table) ->
  format (checkin_checkInTime response) (js "HH:mm:ss") = Some time ->
  exists s' s'',
    step s (settle i (Fulfilled (checkin_data response))) = Some s'
    /\ userIdInput (view s') = []
    /\ newlyIssued s s' = [GET_attendance_all]
    /\ attendanceRecords (view s') = attendanceRecords (view s)
    /\ checkInDisabled (view s') = false
    /\ step s' (settle (length (delete i (inflight s)))
                       (Fulfilled (attendance_data records)))
       = Some s''
    /\ attendanceRecords (view s'') = records
    /\ errorBanner (view s'') = None.
Proof.
  intros Hi Htime. eexists _, _. split; [|split; [|split; [|split; [|split]]]].
  - cbn [step]. rewrite Hi. cbn [resume]. rewrite Htime. reflexivity.
  - reflexivity.
  - apply attendance_newlyIssued_app. reflexivity.
  - reflexivity.
  - reflexivity.
  - split.
    + erewrite (attendance_step_settle_last _ (delete i (inflight s)));
        reflexivity.
    + split; reflexivity.
Qed.

(** While a check-in is in flight neither its message nor its error is set,
    and the two are never set together. *)
Definition feedback_invariant (s : State) : Prop :=
  (loadingCheckIn (view s) = true ->
   checkInMessage (view s) = None /\ checkInError (view s) = None)
  /\ (checkInMessage (view s) = None \/ checkInError (view s) = None).

Lemma feedback_invariant_step s e s' :
  checkIn_invariant s -> feedback_invariant s -> step s e = Some s' ->
  feedback_invariant s'.
Proof.
  intros Hcount [Hbusy Hone] Hstep.
  destruct e as [value| |i r]; cbn [step] in Hstep.
  - injection Hstep as <-. split; [exact Hbusy | exact Hone].
  - destruct (enabled _ _); [|discriminate Hstep]. injection Hstep as <-.
    cbn [handle]. unfold handleManualCheckInSubmit. destruct (truthy _).
    + split; cbn; auto.
    + split; [exact Hbusy | exact Hone].
  - destruct (inflight s !! i) as [[req k]|] eqn:Hi; [|discriminate Hstep].
    destruct (resume k r) as [h|] eqn:Hk; [|discriminate Hstep].
    injection Hstep as <-. destruct k.
    + destruct r as [[d|d|d]|response]; cbn in Hk; try discriminate Hk;
        injection Hk as <-; (split; [exact Hbusy | exact Hone]).
    + destruct r as [[d|d|d]|[response|]]; cbn in Hk; try discriminate Hk;
        injection Hk as <-; (split; [exact Hbusy | exact Hone]).
    + assert (loadingCheckIn (view s) = true) as Hloading.
      { unfold checkIn_invariant, checkInsInFlight in Hcount.
        rewrite (filter_delete_length is_checkIn _ i _ Hi) in Hcount.
        destruct (loadingCheckIn (view s)); [reflexivity|].
        cbn in Hcount. discriminate Hcount. }
      destruct (Hbusy Hloading) as [Hmessage Herror].
      destruct r as [[d|d|d]|response]; cbn in Hk; try discriminate Hk.
      * destruct (format _ _); injection Hk as <-;
          (split; [intros [=] | cbn; auto]).
      * injection Hk as <-. split; [intros [=] | cbn; auto].
Qed.

(** X15. In every reachable state the success message and the error of the
    check-in form are not both on display, and while the Check In button is
    disabled neither is. *)
Theorem checkIn_feedback_exclusive s :
  reachable s ->
  (checkInMessage (view s) = None \/ checkInError (view s) = None)
  /\ (checkInDisabled (view s) = true ->
      checkInMessage (view s) = None /\ checkInError (view s) = None).
Proof.
  intros Hs.
  assert (feedback_invariant s) as [Hbusy Hone]; [|split; assumption].
  induction Hs as [|s e s' Hs IH Hstep].
  - split; [intros [=] | left; reflexivity].
  - exact (feedback_invariant_step s e s'
             (checkIn_invariant_reachable s Hs) IH Hstep).
Qed.

(** *** Further properties: the attendance list *)

(** X16. The rows and the name table are never patched locally: in any
    turn the rows change only when a [GET /attendance/all] is fulfilled,
    and become the reply; the name table changes only when the
    [GET /users] of the startup is fulfilled.  A check-in does not add its
    own row. *)
Theorem rows_written_only_by_their_fetch s e s' :
  step s e = Some s' ->
  (attendanceRecords (view s') <> attendanceRecords (view s) ->
   exists i req d,
     e = settle i (Fulfilled (attendance_data d))
     /\ inflight s !! i = Some (req, fetchAttendanceLogs_await)
     /\ attendanceRecords (view s') = d)
  /\ (usersMap (view s') <> usersMap (view s) ->
      exists i req d,
        e = settle i (Fulfilled (users_data d))
        /\ inflight s !! i = Some (req, loadInitialData_await_fetchUsersMap)
        /\ usersMap (view s') = buildUsersMap d).
Proof.
  intros Hstep. destruct e as [value| |i r]; cbn [step] in Hstep.
  - injection Hstep as <-. split; intros Hne; exfalso; apply Hne; reflexivity.
  - destruct (enabled _ _); [|discriminate Hstep]. injection Hstep as <-.
    cbn [handle]. unfold handleManualCheckInSubmit. destruct (truthy _);
      split; intros Hne; exfalso; apply Hne; reflexivity.
  - destruct (inflight s !! i) as [[req k]|] eqn:Hi; [|discriminate Hstep].
    destruct (resume k r) as [h|] eqn:Hk; [|discriminate Hstep].
    injection Hstep as <-.
    destruct k, r as [[d|d|d]|[response|]]; cbn in Hk; try discriminate Hk.
    all: try (destruct (format _ _)).
    all: injection Hk as <-.
    all: split; intros Hne;
      first [ exfalso; apply Hne; reflexivity
            | exists i, req, d; split; [reflexivity|]; split;
                [exact Hi | reflexivity] ].
Qed.

(** X17. A rejected [GET /attendance/all] leaves the rows on display as
    they are and raises the load-error banner: with the status and status
    text of the response when the server answered, and with the fixed
    network text when it did not. *)
Theorem fetchAttendanceLogs_rejected_keeps_rows s i req response :
  inflight s !! i = Some (req, fetchAttendanceLogs_await) ->
  exists s',
    step s (settle i (Rejected response)) = Some s'
    /\ attendanceRecords (view s') = attendanceRecords (view s)
    /\ loadingLogs (view s') = false
    /\ newlyIssued s s' = []
    /\ errorBanner (view s')
       = Some match response with
              | Some r =>
                  js "Failed to load attendance logs: "
                    ++ numberToString (status r) ++ js " - " ++ statusText r
              | None =>
                  js "Failed to load attendance logs. Network error or backend down."
              end.
Proof.
  intros Hi. destruct response as [r|]; eexists; (split;
    [cbn [step]; rewrite Hi; reflexivity|]).
  all: do 2 (split; [reflexivity|]).
  all: split; [apply attendance_newlyIssued_app; cbn; symmetry; apply app_nil_r|].
  all: reflexivity.
Qed.

End Page.

(** *** The page on concrete inputs *)

Lemma reachable_run `{JSNumber} `{DateFns} s trace s' :
  reachable s -> run s trace = Some s' -> reachable s'.
Proof.
  revert s. induction trace as [|e trace IH]; intros s Hs Hrun; cbn in Hrun.
  - injection Hrun as <-. exact Hs.
  - destruct (step s e) as [s1|] eqn:Hstep; [|discriminate Hrun].
    exact (IH s1 (reachable_step s e s1 Hs Hstep) Hrun).
Qed.

Lemma reachable_after `{JSNumber} `{DateFns} trace :
  reachable (default mount (run mount trace)).
Proof.
  destruct (run mount trace) as [s|] eqn:Hrun; cbn.
  - exact (reachable_run mount trace s reachable_mount Hrun).
  - apply reachable_mount.
Qed.

Definition asha : User :=
  {| user_userId := js "e0a0ca55-986e-4f0c"; name := js "Asha" |}.

(** A member stored with an empty name. *)
Definition nameless : User :=
  {| user_userId := js "7c1d2b90-11aa-4e3b"; name := [] |}.

Definition checkedIn (member : User) : CheckInResponse :=
  {| checkin_userId := user_userId member;
     checkin_checkInTime := js "2025-03-01T09:30:00" |}.

(** The page once both start-up calls are fulfilled, with an id typed in the
    check-in form. *)
Definition loadedWithInput (input : jstring) : list Event :=
  [ settle 0 (Fulfilled (users_data [asha; nameless]));
    settle 0 (Fulfilled (attendance_data []));
    change_userIdInput input ].

(** What the page shows after a run from the mount, when every event of the
    run was enabled. *)
Definition shows `{JSNumber} `{DateFns} (trace : list Event) : option View :=
  view <$> run mount trace.

(** C6 as stated fails: the [userId] of the response is in the table, yet
    the message shows the truncated id and not the mapped (empty) name. *)
Lemma checkIn_empty_name_shows_truncated_id :
  let trace :=
    loadedWithInput (js " 7c1d2b90-11aa-4e3b ")
      ++ [ submit_manualCheckIn;
           settle 0 (Fulfilled (checkin_data (checkedIn nameless))) ] in
  (fun v => usersMap v !! user_userId nameless) <$> shows trace
  = Some (Some (name nameless))
  /\ checkInMessage <$> shows trace
     = Some (Some (js "User 7c1d2b90... checked in successfully at 09:30:00!"))
  /\ checkInMessage <$> shows trace
     <> Some (Some (js "User " ++ name nameless
                      ++ js " checked in successfully at 09:30:00!")).
Proof.
  split; [vm_compute; reflexivity|].
  split; [vm_compute; reflexivity|].
  vm_compute. discriminate.
Qed.

(** An error payload whose [message] field is the empty string. *)
Definition emptyMessage : option ErrorResponse :=
  Some {| status := Some 400%Z; statusText := js "Bad Request";
          data := Some {| message := Some [] |} |}.

(** C7 as stated fails: the error payload has a [message] field, yet the
    text shown is the fixed one and not that message. *)
Lemma checkIn_empty_message_shows_fallback :
  let trace :=
    [ change_userIdInput (js "nobody");
      submit_manualCheckIn;
      settle 1 (Rejected emptyMessage) ] in
  remoteMessage emptyMessage = Some []
  /\ checkInError <$> shows trace
     = Some (Some (js "Failed to check in. Please ensure User ID is valid."))
  /\ checkInError <$> shows trace <> Some (remoteMessage emptyMessage).
Proof.
  split; [reflexivity|].
  split; [vm_compute; reflexivity|].
  vm_compute. discriminate.
Qed.

Definition typedIn (input : jstring) : State :=
  default mount (run mount (loadedWithInput input)).

Definition serverSays (text : jstring) : option ErrorResponse :=
  Some {| status := Some 404%Z; statusText := js "Not Found";
          data := Some {| message := Some text |} |}.

Definition checkingIn (input : jstring) : State :=
  default mount (run mount (loadedWithInput input ++ [submit_manualCheckIn])).

(** A member of the table checks in once the names are loaded: the message
    names her. *)
Lemma checkIn_success_names_user_witness :
  exists s',
    step (checkingIn (js " e0a0ca55-986e-4f0c"))
         (settle 0 (Fulfilled (checkin_data (checkedIn asha))))
    = Some s'
    /\ checkInMessage (view s')
       = Some (js "User Asha checked in successfully at 09:30:00!").
Proof.
  destruct (checkIn_success_names_user
              (checkingIn (js " e0a0ca55-986e-4f0c")) 0
              (POST_attendance_checkin (js "e0a0ca55-986e-4f0c"))
              (checkedIn asha) (js "09:30:00"))
    as [(s' & shown & Hstep & Hmessage & _ & _ & Hname & _) _].
  - vm_compute. reflexivity.
  - vm_compute. reflexivity.
  - exists s'. split; [exact Hstep|].
    rewrite Hmessage, (Hname (js "Asha")).
    + reflexivity.
    + vm_compute. reflexivity.
    + vm_compute. discriminate.
Defined.

(** The server explains the rejection: its message is the text shown. *)
Lemma checkIn_failure_message_witness :
  exists s',
    step (checkingIn (js "nobody")) (settle 0 (Rejected (serverSays (js "User not found"))))
    = Some s'
    /\ checkInError (view s') = Some (js "User not found").
Proof.
  destruct (checkIn_failure_message (checkingIn (js "nobody")) 0
              (POST_attendance_checkin (js "nobody"))
              (buildUsersMap [asha; nameless])
              (serverSays (js "User not found")))
    as (s' & shown & Hstep & Herror & _ & Hmessage & _).
  - vm_compute. reflexivity.
  - exists s'. split; [exact Hstep|].
    rewrite Herror, (Hmessage (js "User not found")).
    + reflexivity.
    + reflexivity.
    + vm_compute. discriminate.
Defined.

(** A blank input submits nothing; a padded id is sent without the padding. *)
Lemma manualCheckIn_submits_trimmed_id_witness :
  handleManualCheckInSubmit (typedIn (js "   ")) = typedIn (js "   ")
  /\ newlyIssued (typedIn (js "  42 "))
                 (handleManualCheckInSubmit (typedIn (js "  42 ")))
     = [POST_attendance_checkin (js "42")].
Proof.
  split.
  - apply (manualCheckIn_submits_trimmed_id (typedIn (js "   "))).
    vm_compute. reflexivity.
  - apply (manualCheckIn_submits_trimmed_id (typedIn (js "  42 "))).
    vm_compute. discriminate.
Defined.

(** With a check-in in flight the button is disabled. *)
Lemma checkIn_control_tracks_submission_witness :
  checkInDisabled (view (checkingIn (js "nobody"))) = true
  /\ checkInsInFlight (checkingIn (js "nobody")) <= 1.
Proof.
  assert (reachable (checkingIn (js "nobody"))) as Hreach
    by apply reachable_after.
  destruct (checkIn_control_tracks_submission _ Hreach) as (Hdisabled & Hone & _).
  split; [|exact Hone].
  apply Hdisabled. vm_compute. lia.
Defined.

(** Asha checks in while the member list is still loading: the message
    shows her id cut short, although the table has her name by then. *)
Lemma checkIn_before_names_load_shows_id_witness :
  exists s',
    run mount [ change_userIdInput (js " e0a0ca55-986e-4f0c");
                submit_manualCheckIn;
                settle 0 (Fulfilled (users_data [asha]));
                settle 0 (Fulfilled (checkin_data (checkedIn asha))) ]
    = Some s'
    /\ usersMap (view s') !! user_userId asha = Some (js "Asha")
    /\ checkInMessage (view s')
       = Some (js "User e0a0ca55... checked in successfully at 09:30:00!").
Proof.
  destruct (checkIn_before_names_load_shows_id
              (js " e0a0ca55-986e-4f0c") [asha] (checkedIn asha) (js "09:30:00"))
    as (s' & Hrun & Htable & Hmessage).
  - vm_compute. discriminate.
  - vm_compute. reflexivity.
  - exists s'. split; [exact Hrun|]. rewrite Htable, Hmessage.
    split; vm_compute; reflexivity.
Defined.

(** A check-in response whose time is not a timestamp. *)
Definition undated : CheckInResponse :=
  {| checkin_userId := user_userId asha; checkin_checkInTime := js "soon" |}.

(** The server accepts the check-in but its time cannot be formatted. *)
Lemma checkIn_unformattable_time_reports_failure_witness :
  exists s',
    step (checkingIn (js "nobody")) (settle 0 (Fulfilled (checkin_data undated)))
    = Some s'
    /\ checkInError (view s')
       = Some (js "Failed to check in. Please ensure User ID is valid.")
    /\ userIdInput (view s') = js "nobody".
Proof.
  destruct (checkIn_unformattable_time_reports_failure
              (checkingIn (js "nobody")) 0
              (POST_attendance_checkin (js "nobody"))
              (buildUsersMap [asha; nameless]) undated)
    as (s' & Hstep & Herror & _ & Hinput & _).
  - vm_compute. reflexivity.
  - vm_compute. reflexivity.
  - exists s'. split; [exact Hstep|]. split; [exact Herror|].
    rewrite Hinput. vm_compute. reflexivity.
Defined.

Definition ashaAtHalfPastNine : AttendanceRecordDisplay :=
  {| attendanceId := Some 1%Z; userId := user_userId asha;
     userName := js "Asha"; checkInTime := js "2025-03-01T09:30:00" |}.

(** The check-in is accepted, and the list fetched again shows its row. *)
Lemma checkIn_success_refreshes_logs_witness :
  exists s' s'',
    step (checkingIn (js "nobody"))
         (settle 0 (Fulfilled (checkin_data (checkedIn asha))))
    = Some s'
    /\ userIdInput (view s') = []
    /\ step s' (settle 0 (Fulfilled (attendance_data [ashaAtHalfPastNine])))
       = Some s''
    /\ attendanceRecords (view s'') = [ashaAtHalfPastNine].
Proof.
  destruct (checkIn_success_refreshes_logs
              (checkingIn (js "nobody")) 0
              (POST_attendance_checkin (js "nobody"))
              (buildUsersMap [asha; nameless]) (checkedIn asha)
              (js "09:30:00") [ashaAtHalfPastNine])
    as (s' & s'' & Hstep & Hinput & _ & _ & _ & Hrefresh & Hrows & _).
  - vm_compute. reflexivity.
  - vm_compute. reflexivity.
  - exists s', s''. auto.
Defined.

(** With a check-in in flight neither a message nor an error is shown. *)
Lemma checkIn_feedback_exclusive_witness :
  checkInMessage (view (checkingIn (js "nobody"))) = None
  /\ checkInError (view (checkingIn (js "nobody"))) = None.
Proof.
  apply (checkIn_feedback_exclusive (checkingIn (js "nobody"))).
  - apply reachable_after.
  - vm_compute. reflexivity.
Defined.

(** The page once the member list of the startup has arrived. *)
Definition namesLoaded : State :=
  default mount (run mount [settle 0 (Fulfilled (users_data [asha; nameless]))]).

(** The turn that changes the name table is the one of the member list. *)
Lemma rows_written_only_by_their_fetch_witness :
  exists i req d,
    settle 0 (Fulfilled (users_data [asha; nameless]))
    = settle i (Fulfilled (users_data d))
    /\ inflight mount !! i = Some (req, loadInitialData_await_fetchUsersMap).
Proof.
  destruct (rows_written_only_by_their_fetch mount
              (settle 0 (Fulfilled (users_data [asha; nameless]))) namesLoaded)
    as (_ & Htable).
  - reflexivity.
  - assert (usersMap (view namesLoaded) <> usersMap (view mount)) as Hchanged.
    { intros E.
      assert (usersMap (view namesLoaded) !! user_userId asha = Some (js "Asha"))
        as Hasha by (vm_compute; reflexivity).
      rewrite E in Hasha. vm_compute in Hasha. discriminate Hasha. }
    destruct (Htable Hchanged) as (i & req & d & He & Hi & _).
    exists i, req, d. auto.
Defined.

(** The server answers 404 to the attendance list. *)
Lemma fetchAttendanceLogs_rejected_keeps_rows_witness :
  exists s',
    step namesLoaded (settle 0 (Rejected (serverSays (js "no such route"))))
    = Some s'
    /\ errorBanner (view s')
       = Some (js "Failed to load attendance logs: 404 - Not Found").
Proof.
  destruct (fetchAttendanceLogs_rejected_keeps_rows namesLoaded 0
              GET_attendance_all (serverSays (js "no such route")))
    as (s' & Hstep & _ & _ & _ & Hbanner).
  - vm_compute. reflexivity.
  - exists s'. split; [exact Hstep|]. rewrite Hbanner. vm_compute. reflexivity.
Defined.

End AttendancePage.

(** ** [src/pages/UsersPage.tsx] *)

Module UsersPage.
Section Page.
Context `{JSNumber}.

Record User := {
  userId : jstring;
  name : jstring;
  age : number;
  gender : jstring;
  contactNumber : jstring;
  membershipStatus : jstring;
  joiningDate : jstring
}.

Definition User_fields (u : User) :=
  (userId u, name u, age u, gender u, contactNumber u, membershipStatus u,
   joiningDate u).

#[export] Instance User_eq_dec : EqDecision User.
Proof.
  intros x y. destruct (decide (User_fields x = User_fields y)) as [E|N].
  - left. destruct x, y. injection E as -> -> -> -> -> -> ->. reflexivity.
  - right. intros ->. apply N. reflexivity.
Defined.

Record FormData := {
  form_name : jstring;
  form_age : jstring;
  form_gender : jstring;
  form_contactNumber : jstring;
  form_membershipStatus : jstring;
  form_joiningDate : jstring
}.

Inductive Field :=
| f_name | f_age | f_gender | f_contactNumber | f_membershipStatus
| f_joiningDate.

(** The reset value of the form:
    [{ name: '', age: '', gender: '', contactNumber: '',
       membershipStatus: 'Inactive',
       joiningDate: format(new Date(), 'yyyy-MM-dd') }]. *)
Definition emptyForm (today : jstring) : FormData :=
  {| form_name := []; form_age := []; form_gender := [];
     form_contactNumber := []; form_membershipStatus := js "Inactive";
     form_joiningDate := today |}.

(** [{ ...formData, [name]: value }] *)
Definition withField (d : FormData) (f : Field) (value : jstring) : FormData :=
  {| form_name := match f with f_name => value | _ => form_name d end;
     form_age := match f with f_age => value | _ => form_age d end;
     form_gender := match f with f_gender => value | _ => form_gender d end;
     form_contactNumber :=
       match f with f_contactNumber => value | _ => form_contactNumber d end;
     form_membershipStatus :=
       match f with
       | f_membershipStatus => value
       | _ => form_membershipStatus d
       end;
     form_joiningDate :=
       match f with f_joiningDate => value | _ => form_joiningDate d end |}.

Record View := {
  users : list User;
  loading : bool;
  error : option jstring;
  showForm : bool;
  editingUser : option User;
  formData : FormData
}.

Definition initialView (today : jstring) : View :=
  {| users := []; loading := true; error := None; showForm := false;
     editingUser := None; formData := emptyForm today |}.

(** [{ ...formData, age: parseInt(formData.age), joiningDate, membershipStatus }] *)
Record UserPayload := {
  payload_name : jstring;
  payload_age : number;
  payload_gender : jstring;
  payload_contactNumber : jstring;
  payload_membershipStatus : jstring;
  payload_joiningDate : jstring
}.

Definition userPayload (d : FormData) : UserPayload :=
  {| payload_name := form_name d;
     payload_age := parseInt (form_age d);
     payload_gender := form_gender d;
     payload_contactNumber := form_contactNumber d;
     payload_membershipStatus := form_membershipStatus d;
     payload_joiningDate := form_joiningDate d |}.

Inductive Request :=
| GET_users
| POST_users (body : UserPayload)
| PUT_users (userId : jstring) (body : UserPayload)
| DELETE_users (userId : jstring).

Inductive Data := users_data (d : list User) | other_data.

Inductive Reply := Fulfilled (d : Data) | Rejected.

Inductive Cont :=
| fetchUsers_await
| handleFormSubmit_await
| handleDeleteClick_await.

Record State := {
  view : View;
  inflight : list (Request * Cont);
  issued : list Request
}.

Definition Handler := State -> State.

Definition on_view (f : View -> View) : Handler := fun s =>
  {| view := f (view s); inflight := inflight s; issued := issued s |}.

Definition await (req : Request) (k : Cont) : Handler := fun s =>
  {| view := view s;
     inflight := inflight s ++ [(req, k)];
     issued := issued s ++ [req] |}.

Definition settled (i : nat) : Handler := fun s =>
  {| view := view s; inflight := delete i (inflight s); issued := issued s |}.

Definition setUsers (x : list User) : Handler := on_view (fun v =>
  {| users := x; loading := loading v; error := error v;
     showForm := showForm v; editingUser := editingUser v;
     formData := formData v |}).

Definition setLoading (x : bool) : Handler := on_view (fun v =>
  {| users := users v; loading := x; error := error v;
     showForm := showForm v; editingUser := editingUser v;
     formData := formData v |}).

Definition setError (x : option jstring) : Handler := on_view (fun v =>
  {| users := users v; loading := loading v; error := x;
     showForm := showForm v; editingUser := editingUser v;
     formData := formData v |}).

Definition setShowForm (x : bool) : Handler := on_view (fun v =>
  {| users := users v; loading := loading v; error := error v;
     showForm := x; editingUser := editingUser v;
     formData := formData v |}).

Definition setEditingUser (x : option User) : Handler := on_view (fun v =>
  {| users := users v; loading := loading v; error := error v;
     showForm := showForm v; editingUser := x;
     formData := formData v |}).

Definition setFormData (x : FormData) : Handler := on_view (fun v =>
  {| users := users v; loading := loading v; error := error v;
     showForm := showForm v; editingUser := editingUser v;
     formData := x |}).

(** [listMembers] *)
Definition fetchUsers : Handler :=
  setLoading true ;; await GET_users fetchUsers_await.

Definition handleInputChange (f : Field) (value : jstring) : Handler :=
  fun s => setFormData (withField (formData (view s)) f value) s.

Definition handleFormSubmit : Handler := fun s =>
  (setError None ;; setLoading true ;;
   match editingUser (view s) with
   | Some u =>
       await (PUT_users (userId u) (userPayload (formData (view s))))
             handleFormSubmit_await
   | None =>
       await (POST_users (userPayload (formData (view s))))
             handleFormSubmit_await
   end) s.

Definition handleEditClick (user : User) : Handler :=
  setEditingUser (Some user) ;;
  setFormData
    {| form_name := name user;
       form_age := numberToString (age user);
       form_gender := gender user;
       form_contactNumber := contactNumber user;
       form_membershipStatus := membershipStatus user;
       form_joiningDate := joiningDate user |} ;;
  setShowForm true.

Definition handleDeleteClick (userId : jstring) (confirmed : bool) : Handler :=
  if confirmed
  then setLoading true ;; await (DELETE_users userId) handleDeleteClick_await
  else skip.

Definition onClick_toggleForm (today : jstring) : Handler := fun s =>
  (setShowForm (negb (showForm (view s))) ;;
   setEditingUser None ;;
   setFormData (emptyForm today)) s.

Definition onClick_cancelEdit (today : jstring) : Handler :=
  setEditingUser None ;; setShowForm false ;; setFormData (emptyForm today).

Definition saveUserFailed : jstring :=
  js "Failed to save user. Please check your input.".

Definition resume (today : jstring) (k : Cont) (r : Reply) : option Handler :=
  match k, r with
  | fetchUsers_await, Fulfilled (users_data d) =>
      Some (setUsers d ;; setError None ;; setLoading false)
  | fetchUsers_await, Fulfilled other_data => None
  | fetchUsers_await, Rejected =>
      Some (setError (Some (js
        "Failed to load users. Please ensure the backend is running and you are logged in.")) ;;
            setLoading false)
  | handleFormSubmit_await, Fulfilled _ =>
      Some (setShowForm false ;;
            setEditingUser None ;;
            setFormData (emptyForm today) ;;
            fetchUsers ;;
            setLoading false)
  | handleFormSubmit_await, Rejected =>
      Some (setError (Some saveUserFailed) ;; setLoading false)
  | handleDeleteClick_await, Fulfilled _ =>
      Some (fetchUsers ;; setLoading false)
  | handleDeleteClick_await, Rejected =>
      Some (setError (Some (js "Failed to delete user.")) ;; setLoading false)
  end.

(** [disabled={loading}] on the submit button. *)
Definition submitDisabled (v : View) : bool := loading v.

(** Every input of the form is [required]: the browser does not submit the
    form with one of them empty. *)
Definition formFilled (d : FormData) : bool :=
  truthy (form_name d) && truthy (form_age d) && truthy (form_gender d)
  && truthy (form_contactNumber d) && truthy (form_membershipStatus d)
  && truthy (form_joiningDate d).

Definition usersTableShown (v : View) : bool :=
  if loading v && bool_decide (length (users v) = 0) then false
  else if bool_decide (length (users v) = 0) then false
  else true.

Inductive Event :=
| click_toggleForm
| change_input (f : Field) (value : jstring)
| submit_form
| click_cancelEdit
| click_edit (user : User)
| click_delete (user : User) (confirmed : bool)
| settle (i : nat) (r : Reply).

Definition enabled (v : View) (e : Event) : bool :=
  match e with
  | click_toggleForm => true
  | change_input _ _ => showForm v
  | submit_form =>
      showForm v && negb (submitDisabled v) && formFilled (formData v)
  | click_cancelEdit => showForm v && bool_decide (is_Some (editingUser v))
  | click_edit user | click_delete user _ =>
      usersTableShown v && bool_decide (user ∈ users v)
  | settle _ _ => true
  end.

Definition handle (today : jstring) (e : Event) : Handler :=
  match e with
  | click_toggleForm => onClick_toggleForm today
  | change_input f value => handleInputChange f value
  | submit_form => handleFormSubmit
  | click_cancelEdit => onClick_cancelEdit today
  | click_edit user => handleEditClick user
  | click_delete user confirmed => handleDeleteClick (userId user) confirmed
  | settle _ _ => skip
  end.

Definition step (today : jstring) (s : State) (e : Event) : option State :=
  match e with
  | settle i r =>
      match inflight s !! i with
      | Some (_, k) =>
          match resume today k r with
          | Some h => Some (h (settled i s))
          | None => None
          end
      | None => None
      end
  | _ => if enabled (view s) e then Some (handle today e s) else None
  end.

Fixpoint run (s : State) (trace : list (jstring * Event)) : option State :=
  match trace with
  | [] => Some s
  | (today, e) :: trace' =>
      match step today s e with
      | Some s' => run s' trace'
      | None => None
      end
  end.

Definition mount (today : jstring) : State :=
  fetchUsers {| view := initialView today; inflight := []; issued := [] |}.

Definition newlyIssued (s s' : State) : list Request :=
  drop (length (issued s)) (issued s').

(** The call a submission of the form issues: [PUT /users/{id}] when a
    member is being edited, [POST /users] otherwise, with the whole form. *)
Definition saveRequest (v : View) : Request :=
  match editingUser v with
  | Some u => PUT_users (userId u) (userPayload (formData v))
  | None => POST_users (userPayload (formData v))
  end.

(** *** Properties of the page *)

Lemma users_newlyIssued_app s s' new :
  issued s' = issued s ++ new -> newlyIssued s s' = new.
Proof. intros E. unfold newlyIssued. rewrite E. apply drop_app_length. Qed.

Lemma users_step_settle_last today s l req k r h :
  inflight s = l ++ [(req, k)] ->
  resume today k r = Some h ->
  step today s (settle (length l) r)
  = Some (h {| view := view s; inflight := l; issued := issued s |}).
Proof.
  intros Hl Hk. unfold step, settled.
  rewrite Hl, list_lookup_middle by reflexivity.
  rewrite Hk, delete_middle, app_nil_r. reflexivity.
Qed.

Lemma step_submit_form today s :
  enabled (view s) submit_form = true ->
  step today s submit_form
  = Some ((setError None ;; setLoading true ;;
           await (saveRequest (view s)) handleFormSubmit_await) s).
Proof.
  intros He. cbn [step]. rewrite He. cbn [handle].
  unfold handleFormSubmit, saveRequest.
  destruct (editingUser (view s)); reflexivity.
Qed.

(** C9. A submission of the member form sends the whole form, as a
    [PUT /users/{id}] when a member is being edited and as a [POST /users]
    otherwise.  When it is fulfilled the form is closed, its fields are
    reset to the defaults (status [Inactive], joining date today) and the
    member list is fetched again at once, the list displayed being the one
    that fetch returns.  When it is rejected the form stays open with the
    values entered, and the error is shown. *)
Theorem handleFormSubmit_contract
    submitted today (s : State) (refetched : list User) :
  enabled (view s) submit_form = true ->
  let n := length (inflight s) in
  (forall d,
     exists s',
       run s [(submitted, submit_form); (today, settle n (Fulfilled d))] = Some s'
       /\ newlyIssued s s' = [saveRequest (view s); GET_users]
       /\ showForm (view s') = false
       /\ editingUser (view s') = None
       /\ formData (view s') = emptyForm today
       /\ form_membershipStatus (formData (view s')) = js "Inactive"
       /\ form_joiningDate (formData (view s')) = today
       /\ inflight s' = inflight s ++ [(GET_users, fetchUsers_await)]
       /\ exists s'',
            step today s' (settle n (Fulfilled (users_data refetched))) = Some s''
            /\ users (view s'') = refetched)
  /\ (exists s',
        run s [(submitted, submit_form); (today, settle n Rejected)] = Some s'
        /\ newlyIssued s s' = [saveRequest (view s)]
        /\ showForm (view s') = true
        /\ formData (view s') = formData (view s)
        /\ editingUser (view s') = editingUser (view s)
        /\ users (view s') = users (view s)
        /\ error (view s') = Some saveUserFailed).
Proof.
  intros He n. pose proof (step_submit_form submitted s He) as Hsubmit.
  assert (showForm (view s) = true) as Hshown.
  { cbn in He. apply andb_true_iff in He as [He _].
    apply andb_true_iff in He as [He _]. exact He. }
  split.
  - intros d. eexists. split; [|split].
    + cbn [run]. rewrite Hsubmit.
      erewrite (users_step_settle_last today _ (inflight s)); [|reflexivity..].
      reflexivity.
    + apply users_newlyIssued_app. cbn. rewrite <- app_assoc. reflexivity.
    + do 6 (split; [reflexivity|]).
      eexists. split;
        [ erewrite (users_step_settle_last today _ (inflight s)); reflexivity
        | reflexivity ].
  - eexists. split; [|split].
    + cbn [run]. rewrite Hsubmit.
      erewrite (users_step_settle_last today _ (inflight s)); [|reflexivity..].
      reflexivity.
    + apply users_newlyIssued_app. reflexivity.
    + split; [exact Hshown|]. do 3 (split; [reflexivity|]). reflexivity.
Qed.

(** *** Further properties: delete, edit, and what a turn may change *)

Ltac users_issued_by_step H :=
  erewrite users_newlyIssued_app in H
    by first [ cbn; rewrite <- ?app_assoc; reflexivity
             | cbn; symmetry; apply app_nil_r ];
  cbn in H;
  repeat (apply elem_of_cons in H as [H|H]; [discriminate H|]);
  try (apply elem_of_nil in H; contradiction).

(** A [DELETE /users/{id}] is only issued by a click on the Delete button
    of a member row that was confirmed in the dialog. *)
Lemma deleteUser_needs_confirmation today s e s' id :
  step today s e = Some s' ->
  DELETE_users id ∈ newlyIssued s s' ->
  exists user, e = click_delete user true /\ userId user = id.
Proof.
  intros Hstep Hin. destruct e; cbn [step] in Hstep.
  1-6: destruct (enabled _ _); [|discriminate Hstep];
       injection Hstep as <-.
  3: destruct (editingUser (view s)) eqn:Hediting;
       unfold handle, handleFormSubmit in Hin; rewrite Hediting in Hin.
  1-6: users_issued_by_step Hin.
  - destruct confirmed.
    + erewrite users_newlyIssued_app in Hin by (cbn; reflexivity).
      apply list_elem_of_singleton in Hin. injection Hin as ->. eauto.
    + users_issued_by_step Hin.
  - destruct (inflight s !! i) as [[req k]|]; [|discriminate Hstep].
    destruct (resume today k r) as [h|] eqn:Hk; [|discriminate Hstep].
    injection Hstep as <-.
    destruct k, r as [[d|]|]; cbn in Hk; try discriminate Hk;
      injection Hk as <-; users_issued_by_step Hin.
Qed.

(** X18. Deleting a member.  A click on Delete that is declined in the
    dialog changes nothing.  A confirmed one sends the one
    [DELETE /users/{id}] of the row clicked; when it is fulfilled the member
    list is requested again, the row staying on display until that fetch
    returns; when it is rejected the list is left as it is, nothing is
    requested and the error is shown.  No turn of the page issues a
    [DELETE] but such a confirmed click. *)
Theorem handleDeleteClick_contract today (s : State) user :
  enabled (view s) (click_delete user true) = true ->
  let n := length (inflight s) in
  step today s (click_delete user false) = Some s
  /\ (forall d,
        exists s',
          run s [(today, click_delete user true); (today, settle n (Fulfilled d))]
          = Some s'
          /\ newlyIssued s s' = [DELETE_users (userId user); GET_users]
          /\ inflight s' = inflight s ++ [(GET_users, fetchUsers_await)]
          /\ users (view s') = users (view s))
  /\ (exists s',
        run s [(today, click_delete user true); (today, settle n Rejected)]
        = Some s'
        /\ newlyIssued s s' = [DELETE_users (userId user)]
        /\ inflight s' = inflight s
        /\ users (view s') = users (view s)
        /\ error (view s') = Some (js "Failed to delete user."))
  /\ (forall s0 e s0' id,
        step today s0 e = Some s0' ->
        DELETE_users id ∈ newlyIssued s0 s0' ->
        exists member, e = click_delete member true /\ userId member = id).
Proof.
  intros He n.
  assert (step today s (click_delete user true)
          = Some (handleDeleteClick (userId user) true s)) as Hclick
    by (cbn [step]; rewrite He; reflexivity).
  split; [|split; [|split]].
  - cbn [step]. change (enabled (view s) (click_delete user false))
      with (enabled (view s) (click_delete user true)).
    rewrite He. reflexivity.
  - intros d. eexists. split; [|split].
    + cbn [run]. rewrite Hclick.
      erewrite (users_step_settle_last today _ (inflight s)); [|reflexivity..].
      reflexivity.
    + apply users_newlyIssued_app. cbn. rewrite <- app_assoc. reflexivity.
    + split; reflexivity.
  - eexists. split; [|split].
    + cbn [run]. rewrite Hclick.
      erewrite (users_step_settle_last today _ (inflight s)); [|reflexivity..].
      reflexivity.
    + apply users_newlyIssued_app. reflexivity.
    + repeat split.
  - intros s0 e s0' id. apply deleteUser_needs_confirmation.
Qed.

(** The form as [handleEditClick] fills it in from a member row. *)
Definition formOf (user : User) : FormData :=
  {| form_name := name user;
     form_age := numberToString (age user);
     form_gender := gender user;
     form_contactNumber := contactNumber user;
     form_membershipStatus := membershipStatus user;
     form_joiningDate := joiningDate user |}.

(** X19. Clicking Edit on a member row and then saving, with nothing
    loading and every field of the row printing to non-empty text, sends
    one [PUT /users/{id}] to the id of that row, whose body is the row's
    own fields, the age printed and parsed back; the form is open on that
    member. *)
Theorem edit_then_save_updates_that_member today (s : State) user :
  enabled (view s) (click_edit user) = true ->
  loading (view s) = false ->
  formFilled (formOf user) = true ->
  exists s',
    run s [(today, click_edit user); (today, submit_form)] = Some s'
    /\ newlyIssued s s'
       = [ PUT_users (userId user)
             {| payload_name := name user;
                payload_age := parseInt (numberToString (age user));
                payload_gender := gender user;
                payload_contactNumber := contactNumber user;
                payload_membershipStatus := membershipStatus user;
                payload_joiningDate := joiningDate user |} ]
    /\ editingUser (view s') = Some user
    /\ showForm (view s') = true.
Proof.
  intros He Hloading Hfilled. eexists. split; [|split].
  - cbn [run step]. rewrite He. cbn [handle].
    assert (enabled (view (handleEditClick user s)) submit_form = true) as ->.
    { cbn. rewrite Hloading. exact Hfilled. }
    reflexivity.
  - apply users_newlyIssued_app. reflexivity.
  - split; reflexivity.
Qed.

(** X20. The member list on display is never patched locally: in any turn
    it changes only when a [GET /users] is fulfilled, and becomes the
    reply.  Saving or deleting a member does not touch it. *)
Theorem users_written_only_by_fetch today s e s' :
  step today s e = Some s' ->
  users (view s') <> users (view s) ->
  exists i req d,
    e = settle i (Fulfilled (users_data d))
    /\ inflight s !! i = Some (req, fetchUsers_await)
    /\ users (view s') = d.
Proof.
  intros Hstep Hne. destruct e; cbn [step] in Hstep.
  1-6: destruct (enabled _ _); [|discriminate Hstep];
       injection Hstep as <-; cbn [handle] in Hne.
  3: unfold handleFormSubmit in Hne; destruct (editingUser (view s)).
  7: destruct confirmed.
  1-8: exfalso; apply Hne; reflexivity.
  destruct (inflight s !! i) as [[req k]|] eqn:Hi; [|discriminate Hstep].
  destruct (resume today k r) as [h|] eqn:Hk; [|discriminate Hstep].
  injection Hstep as <-.
  destruct k, r as [[d|]|]; cbn in Hk; try discriminate Hk;
    injection Hk as <-.
  all: first [ exfalso; apply Hne; reflexivity
             | exists i, req, d; split; [reflexivity|]; split;
                 [exact Hi | reflexivity] ].
Qed.

Inductive reachable : State -> Prop :=
| reachable_mount today : reachable (mount today)
| reachable_step today s e s' :
    reachable s -> step today s e = Some s' -> reachable s'.

(** X21. In every reachable state, while a member is being edited the form
    is open. *)
Theorem editing_implies_form_open s :
  reachable s -> is_Some (editingUser (view s)) -> showForm (view s) = true.
Proof.
  induction 1 as [today|today s e s' Hs IH Hstep].
  - intros [u [=]].
  - destruct e.
    3: { destruct (enabled (view s) submit_form) eqn:He;
           [|cbn [step] in Hstep; rewrite He in Hstep; discriminate Hstep].
         rewrite (step_submit_form today s He) in Hstep.
         injection Hstep as <-. exact IH. }
    all: cbn [step] in Hstep.
    1-5: destruct (enabled _ _); [|discriminate Hstep];
         injection Hstep as <-; cbn [handle].
    + intros [u Hu]. discriminate Hu.
    + exact IH.
    + intros [u Hu]. discriminate Hu.
    + reflexivity.
    + destruct confirmed; exact IH.
    + destruct (inflight s !! i) as [[req k]|] eqn:Hi; [|discriminate Hstep].
      destruct (resume today k r) as [h|] eqn:Hk; [|discriminate Hstep].
      injection Hstep as <-.
      destruct k, r as [[d|]|]; cbn in Hk; try discriminate Hk;
        injection Hk as <-.
      all: first [ exact IH | intros [u Hu]; discriminate Hu ].
Qed.

End Page.

(** *** The page on concrete inputs *)

Definition riya : User :=
  {| userId := js "e0a0ca55-986e-4f0c"; name := js "Riya"; age := Some 31%Z;
     gender := js "Female"; contactNumber := js "5550100";
     membershipStatus := js "Active"; joiningDate := js "2024-11-02" |}.

Definition march1 : jstring := js "2025-03-01".

(** The page with the form open and filled in for a new member. *)
Definition fillingForm : State :=
  default (mount march1)
    (run (mount march1)
       [ (march1, settle 0 (Fulfilled (users_data [])));
         (march1, click_toggleForm);
         (march1, change_input f_name (js "Riya"));
         (march1, change_input f_age (js "31"));
         (march1, change_input f_gender (js "Female"));
         (march1, change_input f_contactNumber (js "5550100")) ]).

(** Saving a new member: on success the form closes and the list is the one
    fetched again; on failure the form stays open with the name typed in. *)
Lemma handleFormSubmit_contract_witness :
  (exists s',
     run fillingForm
         [ (march1, submit_form); (march1, settle 0 (Fulfilled other_data)) ]
     = Some s'
     /\ showForm (view s') = false
     /\ formData (view s') = emptyForm march1
     /\ exists s'',
          step march1 s' (settle 0 (Fulfilled (users_data [riya]))) = Some s''
          /\ users (view s'') = [riya])
  /\ (exists s',
        run fillingForm [ (march1, submit_form); (march1, settle 0 Rejected) ]
        = Some s'
        /\ showForm (view s') = true
        /\ form_name (formData (view s')) = js "Riya").
Proof.
  destruct (handleFormSubmit_contract march1 march1 fillingForm [riya])
    as [Hok Hfailed].
  - vm_compute. reflexivity.
  - split.
    + destruct (Hok other_data)
        as (s' & Hrun & _ & Hshow & _ & Hform & _ & _ & _ & Hrefetch).
      exists s'. auto.
    + destruct Hfailed as (s' & Hrun & _ & Hshow & Hform & _).
      exists s'. rewrite Hform. auto.
Defined.

Lemma users_reachable_run `{JSNumber} s trace s' :
  reachable s -> run s trace = Some s' -> reachable s'.
Proof.
  revert s. induction trace as [|[today e] trace IH]; intros s Hs Hrun;
    cbn in Hrun.
  - injection Hrun as <-. exact Hs.
  - destruct (step today s e) as [s1|] eqn:Hstep; [|discriminate Hrun].
    exact (IH s1 (reachable_step today s e s1 Hs Hstep) Hrun).
Qed.

Lemma users_reachable_after `{JSNumber} today trace :
  reachable (default (mount today) (run (mount today) trace)).
Proof.
  destruct (run (mount today) trace) as [s|] eqn:Hrun; cbn.
  - exact (users_reachable_run _ trace s (reachable_mount today) Hrun).
  - apply reachable_mount.
Qed.

(** The page once the member list of the mount has arrived, with one
    member. *)
Definition listed : State :=
  default (mount march1)
    (run (mount march1) [(march1, settle 0 (Fulfilled (users_data [riya])))]).

(** Deleting Riya: accepted, the list is fetched again; refused, her row
    stays and the error is shown. *)
Lemma handleDeleteClick_contract_witness :
  (exists s',
     run listed [ (march1, click_delete riya true);
                  (march1, settle 0 (Fulfilled other_data)) ]
     = Some s'
     /\ newlyIssued listed s' = [DELETE_users (userId riya); GET_users]
     /\ users (view s') = [riya])
  /\ (exists s',
        run listed [(march1, click_delete riya true); (march1, settle 0 Rejected)]
        = Some s'
        /\ users (view s') = [riya]
        /\ error (view s') = Some (js "Failed to delete user.")).
Proof.
  destruct (handleDeleteClick_contract march1 listed riya)
    as (_ & Hok & Hfailed & _).
  - reflexivity.
  - split.
    + destruct (Hok other_data) as (s' & Hrun & Hissued & _ & Husers).
      exists s'. rewrite Husers. auto.
    + destruct Hfailed as (s' & Hrun & _ & _ & Husers & Herror).
      exists s'. rewrite Husers. auto.
Defined.

(** Edit on Riya's row, then Save: her record is updated under her id. *)
Lemma edit_then_save_updates_that_member_witness :
  exists s',
    run listed [(march1, click_edit riya); (march1, submit_form)] = Some s'
    /\ newlyIssued listed s'
       = [ PUT_users (js "e0a0ca55-986e-4f0c")
             {| payload_name := js "Riya"; payload_age := Some 31%Z;
                payload_gender := js "Female";
                payload_contactNumber := js "5550100";
                payload_membershipStatus := js "Active";
                payload_joiningDate := js "2024-11-02" |} ].
Proof.
  destruct (edit_then_save_updates_that_member march1 listed riya)
    as (s' & Hrun & Hissued & _).
  - reflexivity.
  - reflexivity.
  - reflexivity.
  - exists s'. split; [exact Hrun | exact Hissued].
Defined.

(** The turn that puts Riya on display is the reply of the member list. *)
Lemma users_written_only_by_fetch_witness :
  exists i req d,
    settle 0 (Fulfilled (users_data [riya])) = settle i (Fulfilled (users_data d))
    /\ inflight (mount march1) !! i = Some (req, fetchUsers_await)
    /\ users (view listed) = d.
Proof.
  apply (users_written_only_by_fetch march1 (mount march1)
           (settle 0 (Fulfilled (users_data [riya]))) listed).
  - reflexivity.
  - discriminate.
Defined.

(** While Riya is being edited the form is open. *)
Lemma editing_implies_form_open_witness :
  showForm
    (view (default (mount march1)
             (run (mount march1)
                [ (march1, settle 0 (Fulfilled (users_data [riya])));
                  (march1, click_edit riya) ])))
  = true.
Proof.
  apply editing_implies_form_open.
  - apply users_reachable_after.
  - exists riya. reflexivity.
Defined.

End UsersPage.
